(** * Fragment reassembly of MRN news updates

    A shallow embedding of [process_mrn_update] of
    [src/OMMStream-MRN-LD.py]: the callback that receives one update message
    of the [NewsTextAnalytics] stream at a time, keeps the fragments of
    unfinished news envelopes in the module-level list [_news_envelopes], and
    hands a completed envelope to [zlib.decompress] and [json.loads].

    The global list is threaded through explicitly.  The functions of the
    Python library that the callback calls are modelled next to it:
    [base64.b64decode] and [int] are executable; [zlib.decompress],
    [json.loads] and the console are variables of a section.

    The callback is modelled twice.  [process_mrn_update] leaves the
    progress messages out and keeps one [print], that of the parsed story
    (line 104), whose failure the clause of line 115 expects: line 28 sets
    the console to UTF-8, which encodes every string of this model.
    [process_mrn_update_printing] has the messages of the callback and of
    its [except] clauses as well, over a console that may refuse a string,
    as UTF-8 refuses one with a lone surrogate; on a console that refuses
    none the two agree (lemma [printing_changes_nothing]). *)

From Stdlib Require Import ZArith NArith String Ascii List Lia.
From stdpp Require Import gmap strings list.

Local Open Scope Z_scope.

(** ** Python values and exceptions *)

(** The scalar values a field of the update message can hold: [None], a
    [bool], an [int] or a [str].  A Python [str] is a Rocq string (code
    points below 256).  Numbers with a fraction and nested containers are
    not fields of this model. *)
Inductive value :=
| VNone
| VBool (b : bool)
| VInt (z : Z)
| VStr (s : string).

(** The classes of the exceptions that the statements of the callback can
    raise.  [ValueError] stands for the class itself and for its subclasses
    [json.JSONDecodeError] and [UnicodeDecodeError], which no [except] clause
    of the callback names. *)
Inductive exn :=
| KeyError
| IndexError
| TypeError
| ValueError
| binascii_Error
| zlib_error
| UnicodeEncodeError.

(** Statements that either raise or yield a value. *)
Definition raising (A : Type) : Type := exn + A.

Definition ok {A} (a : A) : raising A := inr a.
Definition raise {A} (e : exn) : raising A := inl e.

(** [a == b] on scalars: [bool] is a subclass of [int], so [True == 1]. *)
Definition as_int (v : value) : option Z :=
  match v with
  | VBool b => Some (Z.b2z b)
  | VInt z => Some z
  | _ => None
  end.

Definition py_eq (a b : value) : bool :=
  match a, b with
  | VNone, VNone => true
  | VStr s, VStr t => String.eqb s t
  | _, _ =>
      match as_int a, as_int b with
      | Some x, Some y => x =? y
      | _, _ => false
      end
  end.

(** ** [int(x)] *)

Definition code (c : ascii) : N := N_of_ascii c.

(** White space that [int] skips around the digits. *)
Definition is_space (c : ascii) : bool :=
  let n := code c in
  ((9 <=? n) && (n <=? 13) || (n =? 32) || (n =? 133) || (n =? 160))%N.

Definition is_digit (c : ascii) : bool :=
  let n := code c in ((48 <=? n) && (n <=? 57))%N.

Definition digit_value (c : ascii) : Z := Z.of_N (code c - 48).

Definition is_underscore (c : ascii) : bool := (code c =? 95)%N.

Fixpoint lstrip (s : list ascii) : list ascii :=
  match s with
  | c :: s' => if is_space c then lstrip s' else s
  | [] => []
  end.

(** The run of digits and single underscores at the head of [s]: the value
    read so far, the number of digits, whether the last character read was
    an underscore, and what follows the run.  [None] on two underscores in
    a row. *)
Fixpoint scan_digits (s : list ascii) (prev_underscore : bool) (digits : N) (acc : Z)
  : option (Z * N * bool * list ascii) :=
  match s with
  | c :: s' =>
      if is_digit c then scan_digits s' false (digits + 1)%N (10 * acc + digit_value c)
      else if is_underscore c then
        if prev_underscore then None else scan_digits s' true digits acc
      else Some (acc, digits, prev_underscore, s)
  | [] => Some (acc, digits, prev_underscore, [])
  end.

(** The interpreter's default limit on the digits of a decimal string. *)
Definition max_str_digits : N := 4300.

Definition int_of_str (s : string) : raising Z :=
  let s1 := lstrip (list_ascii_of_string s) in
  let '(negative, s2) :=
    match s1 with
    | c :: s' =>
        if (code c =? 43)%N then (false, s')
        else if (code c =? 45)%N then (true, s')
        else (false, s1)
    | [] => (false, s1)
    end in
  match s2 with
  | c :: _ =>
      if is_underscore c then raise ValueError
      else
        match scan_digits s2 false 0%N 0 with
        | None => raise ValueError
        | Some (acc, digits, trailing_underscore, rest) =>
            if trailing_underscore then raise ValueError
            else if (digits =? 0)%N then raise ValueError
            else if (max_str_digits <? digits)%N then raise ValueError
            else if forallb is_space rest then ok (if negative then - acc else acc)
            else raise ValueError
        end
  | [] => raise ValueError
  end.

Definition int (v : value) : raising Z :=
  match v with
  | VNone => raise TypeError
  | VBool b => ok (Z.b2z b)
  | VInt z => ok z
  | VStr s => int_of_str s
  end.

(** ** [base64.b64decode(s)]

    The decoder in its default, lenient mode: characters outside the
    alphabet are skipped, a pad character ends the input once it completes a
    quad, and a quad left open at the end of the input is an error. *)

Definition bytes := list Byte.byte.

Definition byte_of_N (n : N) : Byte.byte := byte_of_ascii (ascii_of_N n).

Definition table_a2b_base64 (c : ascii) : option N :=
  let n := code c in
  (if (65 <=? n) && (n <=? 90) then Some (n - 65)
   else if (97 <=? n) && (n <=? 122) then Some (n - 71)
   else if (48 <=? n) && (n <=? 57) then Some (n + 4)
   else if n =? 43 then Some 62
   else if n =? 47 then Some 63
   else None)%N.

Definition BASE64_PAD : N := 61.

Fixpoint a2b_base64 (s : list ascii) (quad_pos leftchar pads : N) (bin_data : bytes)
  : raising bytes :=
  match s with
  | [] => if (quad_pos =? 0)%N then ok bin_data else raise binascii_Error
  | c :: s' =>
      if (code c =? BASE64_PAD)%N then
        if ((2 <=? quad_pos) && (4 <=? quad_pos + (pads + 1)))%N then ok bin_data
        else a2b_base64 s' quad_pos leftchar
               (if (2 <=? quad_pos)%N then (pads + 1)%N else pads) bin_data
      else
        match table_a2b_base64 c with
        | None => a2b_base64 s' quad_pos leftchar pads bin_data
        | Some this_ch =>
            match quad_pos with
            | 0%N => a2b_base64 s' 1%N this_ch 0%N bin_data
            | 1%N =>
                a2b_base64 s' 2%N (N.land this_ch 15) 0%N
                  (bin_data ++ [byte_of_N (N.lor (N.shiftl leftchar 2) (N.shiftr this_ch 4))])
            | 2%N =>
                a2b_base64 s' 3%N (N.land this_ch 3) 0%N
                  (bin_data ++ [byte_of_N (N.lor (N.shiftl leftchar 4) (N.shiftr this_ch 2))])
            | _ =>
                a2b_base64 s' 0%N 0%N 0%N
                  (bin_data ++ [byte_of_N (N.lor (N.shiftl leftchar 6) this_ch)])
            end
        end
  end.

Definition is_ascii (c : ascii) : bool := (code c <? 128)%N.

Definition b64decode (v : value) : raising bytes :=
  match v with
  | VStr s =>
      let cs := list_ascii_of_string s in
      if forallb is_ascii cs then a2b_base64 cs 0%N 0%N 0%N [] else raise ValueError
  | _ => raise TypeError
  end.

Definition ascii_bytes (s : string) : bytes := map byte_of_ascii (list_ascii_of_string s).

(** ** The update message and the list of unfinished envelopes *)

(** What a key of the message holds: a scalar, or an object of scalars such
    as the one under ['Fields']. *)
Inductive json :=
| JScalar (v : value)
| JObject (o : gmap string value).

(** [fields_data[key]] *)
Definition subscript (fields_data : json) (key : string) : raising value :=
  match fields_data with
  | JObject o =>
      match o !! key with
      | Some v => ok v
      | None => raise KeyError
      end
  | JScalar _ => raise TypeError
  end.

(** An element of [_news_envelopes] (lines 89-97). *)
Record envelope_data := {
  FRAGMENT : bytes;
  MRN_SRC : value;
  FRAG_NUM : Z;
  tot_size : Z
}.

Record envelope := {
  GUID : value;
  data : envelope_data
}.

(** [next((index for (index, d) in enumerate(_news_envelopes)
          if d['GUID'] == guid), None)] *)
Definition guid_index_of (guid : value) (envs : list envelope) : option nat :=
  fst <$> list_find (fun d => Is_true (py_eq (GUID d) guid)) envs.

(** [_news_envelopes[guid_index]]: a list cannot be indexed by [None]. *)
Definition list_getitem (envs : list envelope) (guid_index : option nat) : raising envelope :=
  match guid_index with
  | None => raise TypeError
  | Some i =>
      match envs !! i with
      | Some d => ok d
      | None => raise IndexError
      end
  end.

(** A dictionary with keys is true in a condition. *)
Definition truthy (envelop : envelope) : bool := true.

Definition len (fragment : bytes) : Z := Z.of_nat (length fragment).

(** ** Statements over the global list

    A statement starts from the current [_news_envelopes] and ends normally
    with a value, in [return None], or by raising; the list it leaves is
    kept in each case. *)

Inductive early :=
| Waiting      (* [return None] of lines 76 and 98: the envelope is not complete *)
| CannotFind.  (* [return None] of line 82, after the error message of line 81 *)

Inductive completion (A : Type) :=
| Normal (a : A)
| Returned (r : early)
| Raised (e : exn).
Arguments Normal {A} a.
Arguments Returned {A} r.
Arguments Raised {A} e.

Definition stmt (A : Type) : Type := list envelope -> completion A * list envelope.

Definition pure {A} (a : A) : stmt A := fun envs => (Normal a, envs).

Definition and_then {A B} (m : stmt A) (k : A -> stmt B) : stmt B :=
  fun envs =>
    match m envs with
    | (Normal a, envs') => k a envs'
    | (Returned r, envs') => (Returned r, envs')
    | (Raised e, envs') => (Raised e, envs')
    end.

Notation "x <- m ;; k" := (and_then m (fun x => k))
  (at level 100, m at next level, right associativity).
Notation "m ;;; k" := (and_then m (fun _ => k))
  (at level 100, right associativity).

Definition eval {A} (r : raising A) : stmt A :=
  fun envs => match r with inl e => (Raised e, envs) | inr a => (Normal a, envs) end.

Definition return_None {A} (r : early) : stmt A := fun envs => (Returned r, envs).

Definition news_envelopes : stmt (list envelope) := fun envs => (Normal envs, envs).

(** [envelop['data']['FRAGMENT'] = fragment; envelop['data']['FRAG_NUM'] = frag_num]
    where [envelop] is the dictionary that line 62 has read at [guid_index]
    of the list: the assignments change the list there. *)
Definition merged (fragment : bytes) (frag_num : Z) (d : envelope) : envelope :=
  {| GUID := GUID d;
     data := {| FRAGMENT := fragment; MRN_SRC := MRN_SRC (data d);
                FRAG_NUM := frag_num; tot_size := tot_size (data d) |} |}.

Definition merge_at (guid_index : option nat) (fragment : bytes) (frag_num : Z) : stmt unit :=
  fun envs =>
    (Normal tt,
     match guid_index with
     | Some i => alter (merged fragment frag_num) i envs
     | None => envs
     end).

(** [del _news_envelopes[guid_index]] *)
Definition del_at (guid_index : option nat) : stmt unit :=
  fun envs =>
    match guid_index with
    | None => (Raised TypeError, envs)
    | Some i =>
        if (i <? length envs)%nat then (Normal tt, delete i envs)
        else (Raised IndexError, envs)
    end.

(** [_news_envelopes.append(d)] *)
Definition list_append (d : envelope) : stmt unit := fun envs => (Normal tt, envs ++ [d]).

(** ** Lines 51-101 of [process_mrn_update] *)

(** Lines 61-79, the branch [frag_num > 1]: the total size and the merged
    fragment of an envelope that this fragment completes. *)
Definition later_fragment (fragment : bytes) (frag_num : Z) (guid mrn_src : value)
  : stmt (Z * bytes) :=
  envs <- news_envelopes ;;
  let guid_index := guid_index_of guid envs in
  envelop <- eval (list_getitem envs guid_index) ;;
  if truthy envelop
     && py_eq (MRN_SRC (data envelop)) mrn_src
     && (frag_num =? FRAG_NUM (data envelop) + 1)
  then
    let fragment := FRAGMENT (data envelop) ++ fragment in
    merge_at guid_index fragment frag_num ;;;
    let tot_size := tot_size (data envelop) in
    if negb (tot_size =? len fragment) then return_None Waiting
    else if tot_size =? len fragment then
      del_at guid_index ;;; pure (tot_size, fragment)
    else pure (tot_size, fragment)
  else return_None CannotFind.

(** Lines 84-98, the branch [else]. *)
Definition first_fragment (fields_data : json) (fragment : bytes) (frag_num : Z)
    (guid mrn_src : value) : stmt (Z * bytes) :=
  tot_size_field <- eval (subscript fields_data "TOT_SIZE") ;;
  tot_size <- eval (int tot_size_field) ;;
  if negb (tot_size =? len fragment) then
    list_append {| GUID := guid;
              data := {| FRAGMENT := fragment; MRN_SRC := mrn_src;
                         FRAG_NUM := frag_num; tot_size := tot_size |} |} ;;;
    return_None Waiting
  else pure (tot_size, fragment).

(** The value is the [fragment] that line 103 decompresses, or [None] when
    the test of line 101 fails. *)
Definition try_block (fields_data : json) : stmt (option bytes) :=
  fragment_field <- eval (subscript fields_data "FRAGMENT") ;;
  fragment <- eval (b64decode fragment_field) ;;
  frag_num_field <- eval (subscript fields_data "FRAG_NUM") ;;
  frag_num <- eval (int frag_num_field) ;;
  guid <- eval (subscript fields_data "GUID") ;;
  mrn_src <- eval (subscript fields_data "MRN_SRC") ;;
  completed <-
    (if 1 <? frag_num then later_fragment fragment frag_num guid mrn_src
     else first_fragment fields_data fragment frag_num guid mrn_src) ;;
  let '(tot_size, fragment) := completed in
  if tot_size =? len fragment then pure (Some fragment) else pure None.

(** ** The [except] clauses (lines 106-118)

    The first clause whose class the exception is an instance of. *)
Inductive handler :=
| except_KeyError
| except_IndexError
| except_binascii_Error
| except_zlib_error
| except_UnicodeEncodeError
| except_Exception.

Definition except (e : exn) : handler :=
  match e with
  | KeyError => except_KeyError
  | IndexError => except_IndexError
  | binascii_Error => except_binascii_Error
  | zlib_error => except_zlib_error
  | UnicodeEncodeError => except_UnicodeEncodeError
  | TypeError | ValueError => except_Exception
  end.

(** ** The callback *)

Section Callback.

(** The parsed news story, and the three library calls of lines 103-104:
    [zlib.decompress(fragment, zlib.MAX_WBITS | 32)], which raises
    [zlib.error] ([None]); [json.loads], which raises [json.JSONDecodeError]
    or [UnicodeDecodeError] ([None]); and [print] of the story, which raises
    [UnicodeEncodeError] when the console cannot encode it ([false]). *)
Variable Doc : Type.
Variable zlib_decompress : bytes -> option bytes.
Variable json_loads : bytes -> option Doc.
Variable console_encodes : Doc -> bool.

(** Lines 103-104. *)
Definition decompress_and_print (fragment : bytes) : raising Doc :=
  match zlib_decompress fragment with
  | None => raise zlib_error
  | Some decompressed_data =>
      match json_loads decompressed_data with
      | None => raise ValueError
      | Some doc => if console_encodes doc then ok doc else raise UnicodeEncodeError
      end
  end.

(** What became of the envelope that reached line 103. *)
Inductive decoded :=
| News (doc : Doc)        (* printed by line 104 *)
| Failed (h : handler).   (* line 103 or 104 raised, and this clause caught it *)

Definition delivered (fragment : bytes) : decoded :=
  match decompress_and_print fragment with
  | inl e => Failed (except e)
  | inr doc => News doc
  end.

(** What one call of [process_mrn_update] did. *)
Inductive outcome :=
| ReturnedNone (r : early)                     (* a [return None] inside the [try] *)
| Completed (fragment : bytes) (d : decoded)   (* line 103 ran on [fragment] *)
| Skipped                                      (* the test of line 101 failed *)
| Handled (h : handler)                        (* lines 51-101 raised, and this clause caught it *)
| Propagated (e : exn).                        (* raised outside the [try]: line 43, or a clause *)

(** Lines 43-118 without the messages of progress and of the clauses, none
    of which raises on a console that encodes what it is given. *)
Definition process_mrn_update (message_json : gmap string json) (envs : list envelope)
  : outcome * list envelope :=
  match message_json !! "Fields" with
  | None => (Propagated KeyError, envs)
  | Some fields_data =>
      match try_block fields_data envs with
      | (Raised e, envs') => (Handled (except e), envs')
      | (Returned r, envs') => (ReturnedNone r, envs')
      | (Normal None, envs') => (Skipped, envs')
      | (Normal (Some fragment), envs') =>
          (Completed fragment (delivered fragment), envs')
      end
  end.

(** The stream delivers the update messages one at a time. *)
Fixpoint run (messages : list (gmap string json)) (envs : list envelope)
  : list outcome * list envelope :=
  match messages with
  | [] => ([], envs)
  | m :: messages' =>
      let '(o, envs') := process_mrn_update m envs in
      let '(os, envs'') := run messages' envs' in
      (o :: os, envs'')
  end.

End Callback.

Arguments News {Doc} doc.
Arguments Failed {Doc} h.
Arguments ReturnedNone {Doc} r.
Arguments Completed {Doc} fragment d.
Arguments Skipped {Doc}.
Arguments Handled {Doc} h.
Arguments Propagated {Doc} e.

(** An update message with these fields. *)
Definition update (fields : gmap string value) : gmap string json :=
  {[ "Fields" := JObject fields ]}.

(** ** A sample of the library, for running the callback

    Two facts about zlib and json: the eight bytes [78 9c 03 00 00 00 00 01]
    are the zlib stream of the empty byte string, the ten bytes
    [78 9c ab ae 05 00 01 75 00 f9] that of ["{}"]; the three bytes "ABC",
    the only other envelope that the sample updates below complete, are not
    a stream.  The empty byte string is not a JSON text; ["{}"] is the empty
    object. *)
Definition zlib_of_empty : bytes := map byte_of_N [120; 156; 3; 0; 0; 0; 0; 1]%N.
Definition zlib_of_braces : bytes := map byte_of_N [120; 156; 171; 174; 5; 0; 1; 117; 0; 249]%N.

Definition bytes_eqb (a b : bytes) : bool := bool_decide (map Byte.to_N a = map Byte.to_N b).

Inductive sample_doc := EmptyObject.

Definition sample_zlib (b : bytes) : option bytes :=
  if bytes_eqb b zlib_of_empty then Some []
  else if bytes_eqb b zlib_of_braces then Some (ascii_bytes "{}")
  else None.

Definition sample_json (b : bytes) : option sample_doc :=
  if bytes_eqb b (ascii_bytes "{}") then Some EmptyObject else None.

Definition sample_console (d : sample_doc) : bool := true.

(** Updates as the stream sends them: FRAG_NUM and TOT_SIZE are numbers,
    the other fields are strings. *)
Definition fragment_update (fragment : string) (frag_num : Z) (guid mrn_src : string)
  : gmap string value :=
  {[ "FRAGMENT" := VStr fragment; "FRAG_NUM" := VInt frag_num;
     "GUID" := VStr guid; "MRN_SRC" := VStr mrn_src ]}.

Definition first_update (fragment : string) (total : Z) (guid mrn_src : string)
  : gmap string value :=
  <[ "TOT_SIZE" := VInt total ]> (fragment_update fragment 1 guid mrn_src).

(** The story ["{}"] in one update and in two; an envelope that is never
    finished; fragments for the envelope that [two_bytes] opens; complete
    envelopes that are not a story. *)
Definition whole_story := first_update "eJyrrgUAAXUA+Q==" 10 "g1" "src".
Definition story_part1 := first_update "eJyrrgUA" 10 "g1" "src".
Definition story_part2 := fragment_update "AXUA+Q==" 2 "g1" "src".
Definition abandoned := first_update "WA==" 9 "g1" "src".
Definition two_bytes := first_update "QUI=" 4 "g1" "src".
Definition two_more := fragment_update "Q0Q=" 2 "g1" "src".
Definition three_more := fragment_update "Q0RF" 2 "g1" "src".
Definition not_json := first_update "eJwDAAAAAAE=" 8 "g1" "src".
Definition not_a_stream := first_update "QUJD" 3 "g1" "src".
Definition bad_padding := first_update "QUJ" 4 "g1" "src".
Definition zeroth := <[ "FRAG_NUM" := VInt 0 ]> (first_update "QUI=" 4 "g1" "src").

Definition sample_update := process_mrn_update sample_doc sample_zlib sample_json sample_console.
Definition sample_run := run sample_doc sample_zlib sample_json sample_console.

(** ** Vocabulary of the properties *)

(** The update [fields] carries the fragment [chunk], numbered [frag_num],
    of the envelope [guid] from [mrn_src] (what lines 51-54 read). *)
Definition carries (fields : gmap string value) (guid mrn_src : value)
    (frag_num : Z) (chunk : bytes) : Prop :=
  (exists v, fields !! "FRAGMENT" = Some v /\ b64decode v = ok chunk) /\
  (exists v, fields !! "FRAG_NUM" = Some v /\ int v = ok frag_num) /\
  fields !! "GUID" = Some guid /\
  fields !! "MRN_SRC" = Some mrn_src.

(** The update declares the size [total] of the envelope (line 84). *)
Definition declares (fields : gmap string value) (total : Z) : Prop :=
  exists v, fields !! "TOT_SIZE" = Some v /\ int v = ok total.

(** The updates [fs] carry the chunks [cs], numbered from [k] on. *)
Fixpoint follow (guid mrn_src : value) (k : Z)
    (fs : list (gmap string value)) (cs : list bytes) : Prop :=
  match fs, cs with
  | [], [] => True
  | f :: fs', c :: cs' => carries f guid mrn_src k c /\ follow guid mrn_src (k + 1) fs' cs'
  | _, _ => False
  end.

(** The envelope that line 89 appends. *)
Definition new_envelope (guid mrn_src : value) (frag_num total : Z) (chunk : bytes) : envelope :=
  {| GUID := guid;
     data := {| FRAGMENT := chunk; MRN_SRC := mrn_src;
                FRAG_NUM := frag_num; tot_size := total |} |}.

(** The envelopes of the list that are kept under another GUID. *)
Definition others (guid : value) (envs : list envelope) : list envelope :=
  filter (fun d => ~ Is_true (py_eq (GUID d) guid)) envs.

(** The same, for the GUID as line 53 reads it: without a GUID, all of
    the list. *)
Definition others_than (guid : raising value) (envs : list envelope) : list envelope :=
  match guid with
  | inr g => others g envs
  | inl _ => envs
  end.

(** The call raised instead of returning. *)
Definition propagates {Doc} (o : outcome Doc) : bool :=
  match o with
  | Propagated _ => true
  | _ => false
  end.

(** The envelopes of the list that are kept under this GUID. *)
Definition entries_of (guid : value) (envs : list envelope) : list envelope :=
  filter (fun d => Is_true (py_eq (GUID d) guid)) envs.

(** ** The callbacks of the stream (lines 32-39 and 133-142) *)

Section Stream.

Variable Doc : Type.
Variable zlib_decompress : bytes -> option bytes.
Variable json_loads : bytes -> option Doc.
Variable console_encodes : Doc -> bool.

(** [display_event] prints the time and the event, and hands the event to
    [process_mrn_update] when its type is "Update" and to nothing otherwise:
    [None] is an event that was only printed. *)
Definition display_event (eventType : string) (event : gmap string json)
    (envs : list envelope) : option (outcome Doc) * list envelope :=
  if String.eqb eventType "Update" then
    let '(o, envs') :=
      process_mrn_update Doc zlib_decompress json_loads console_encodes event envs in
    (Some o, envs')
  else (None, envs).

(** The four callbacks that lines 133-142 register with the stream. *)
Inductive callback := on_refresh | on_update | on_status | on_error.

Definition eventType_of (c : callback) : string :=
  match c with
  | on_refresh => "Refresh"
  | on_update => "Update"
  | on_status => "Status"
  | on_error => "Error"
  end.

(** The stream calls one callback per event; as in [run], the next event
    finds the list that the last one left. *)
Fixpoint stream (events : list (callback * gmap string json)) (envs : list envelope)
  : list (option (outcome Doc)) * list envelope :=
  match events with
  | [] => ([], envs)
  | (c, event) :: events' =>
      let '(o, envs') := display_event (eventType_of c) event envs in
      let '(os, envs'') := stream events' envs' in
      (o :: os, envs'')
  end.

End Stream.

Arguments on_refresh : clear implicits.
Arguments on_update : clear implicits.
Arguments on_status : clear implicits.
Arguments on_error : clear implicits.

(** The events that reach [process_mrn_update]. *)
Definition is_update (c : callback) : bool :=
  match c with
  | on_update => true
  | _ => false
  end.

Definition updates_of (events : list (callback * gmap string json)) : list (gmap string json) :=
  snd <$> filter (fun p => Is_true (is_update (fst p))) events.

(** ** The callback with its prints

    [process_mrn_update] once more, now with the messages that it prints
    between its statements and in its [except] clauses.  [print] raises
    [UnicodeEncodeError] when the console cannot encode a text.  The text of
    a message is ASCII but for the values that it shows: a [str] is shown as
    it is; [None], a [bool] and an [int] are shown in ASCII, and so are an
    exception and its class.  Line 28 sets the console to UTF-8, which
    encodes every [str] but one with a lone surrogate; the variable
    [encodable] tells which strings the console encodes. *)

Section Console.

Variable Doc : Type.
Variable zlib_decompress : bytes -> option bytes.
Variable json_loads : bytes -> option Doc.
Variable console_encodes : Doc -> bool.
Variable encodable : string -> bool.

Definition printable (v : value) : bool :=
  match v with
  | VStr s => encodable s
  | _ => true
  end.

(** [print(f'... {v1} ... {v2} ...')] *)
Definition print (shown : list value) : stmt unit :=
  fun envs =>
    if forallb printable shown then (Normal tt, envs)
    else (Raised UnicodeEncodeError, envs).

(** Lines 61-82, with the messages of lines 64 and 81 (lines 71 and 72 show
    two numbers). *)
Definition later_fragment_printing (fragment : bytes) (frag_num : Z) (guid mrn_src : value)
  : stmt (Z * bytes) :=
  envs <- news_envelopes ;;
  let guid_index := guid_index_of guid envs in
  envelop <- eval (list_getitem envs guid_index) ;;
  if truthy envelop
     && py_eq (MRN_SRC (data envelop)) mrn_src
     && (frag_num =? FRAG_NUM (data envelop) + 1)
  then
    print [GUID envelop] ;;;
    let fragment := FRAGMENT (data envelop) ++ fragment in
    merge_at guid_index fragment frag_num ;;;
    let tot_size := tot_size (data envelop) in
    if negb (tot_size =? len fragment) then return_None Waiting
    else if tot_size =? len fragment then
      del_at guid_index ;;; pure (tot_size, fragment)
    else pure (tot_size, fragment)
  else
    print [guid; mrn_src] ;;;
    return_None CannotFind.

(** Lines 84-98, with the message of line 88 (line 85 shows a number). *)
Definition first_fragment_printing (fields_data : json) (fragment : bytes) (frag_num : Z)
    (guid mrn_src : value) : stmt (Z * bytes) :=
  tot_size_field <- eval (subscript fields_data "TOT_SIZE") ;;
  tot_size <- eval (int tot_size_field) ;;
  if negb (tot_size =? len fragment) then
    print [guid] ;;;
    list_append {| GUID := guid;
                   data := {| FRAGMENT := fragment; MRN_SRC := mrn_src;
                              FRAG_NUM := frag_num; tot_size := tot_size |} |} ;;;
    return_None Waiting
  else pure (tot_size, fragment).

(** Lines 51-102: line 102 shows the GUID before line 103 decompresses. *)
Definition try_block_printing (fields_data : json) : stmt (option bytes) :=
  fragment_field <- eval (subscript fields_data "FRAGMENT") ;;
  fragment <- eval (b64decode fragment_field) ;;
  frag_num_field <- eval (subscript fields_data "FRAG_NUM") ;;
  frag_num <- eval (int frag_num_field) ;;
  guid <- eval (subscript fields_data "GUID") ;;
  mrn_src <- eval (subscript fields_data "MRN_SRC") ;;
  completed <-
    (if 1 <? frag_num then later_fragment_printing fragment frag_num guid mrn_src
     else first_fragment_printing fields_data fragment frag_num guid mrn_src) ;;
  let '(tot_size, fragment) := completed in
  if tot_size =? len fragment then (print [guid] ;;; pure (Some fragment)) else pure None.

(** The variable [guid] when an [except] clause runs: the [None] of line 47
    until line 53 is reached and has found the field. *)
Definition guid_variable (fields_data : json) : value :=
  match subscript fields_data "FRAGMENT" with
  | inl _ => VNone
  | inr fragment_field =>
      match b64decode fragment_field with
      | inl _ => VNone
      | inr _ =>
          match subscript fields_data "FRAG_NUM" with
          | inl _ => VNone
          | inr frag_num_field =>
              match int frag_num_field with
              | inl _ => VNone
              | inr _ =>
                  match subscript fields_data "GUID" with
                  | inl _ => VNone
                  | inr guid => guid
                  end
              end
          end
      end
  end.

(** The [print] of a clause raises: the clauses show the exception or its
    class, and the clause of line 115 shows [guid] as well (line 116). *)
Definition clause_raises (h : handler) (guid : value) : bool :=
  match h with
  | except_UnicodeEncodeError => negb (printable guid)
  | _ => false
  end.

(** The clause that catches [e] runs, and [o] is the outcome unless the
    clause raises in its turn, which nothing catches. *)
Definition caught (e : exn) (guid : value) (o : outcome Doc) : outcome Doc :=
  if clause_raises (except e) guid then Propagated UnicodeEncodeError else o.

Definition process_mrn_update_printing (message_json : gmap string json)
    (envs : list envelope) : outcome Doc * list envelope :=
  match message_json !! "Fields" with
  | None => (Propagated KeyError, envs)
  | Some fields_data =>
      let guid := guid_variable fields_data in
      match try_block_printing fields_data envs with
      | (Raised e, envs') => (caught e guid (Handled (except e)), envs')
      | (Returned r, envs') => (ReturnedNone r, envs')
      | (Normal None, envs') => (Skipped, envs')
      | (Normal (Some fragment), envs') =>
          (match decompress_and_print Doc zlib_decompress json_loads console_encodes
                   fragment with
           | inl e => caught e guid (Completed fragment (Failed (except e)))
           | inr doc => Completed fragment (News doc)
           end,
           envs')
      end
  end.

(** [display_event] over it.  Line 35 shows [eventType]; the time and the
    event that lines 35 and 36 print are ASCII ([json.dumps] escapes what
    is not).  The result is the exception of line 35, or what the call of
    line 38 did, or nothing for an event of another type. *)
Definition display_event_printing (eventType : string) (event : gmap string json)
    (envs : list envelope) : option (outcome Doc) * list envelope :=
  if encodable eventType then
    if String.eqb eventType "Update" then
      let '(o, envs') := process_mrn_update_printing event envs in
      (Some o, envs')
    else (None, envs)
  else (Some (Propagated UnicodeEncodeError), envs).

End Console.

(** The console of line 28 on the strings of this model. *)
Definition utf_8 (s : string) : bool := true.

(** Whether [base64.b64decode] takes the value for base64 text at all: a
    [str] of ASCII characters. *)
Definition ascii_text (v : value) : bool :=
  match v with
  | VStr s => forallb is_ascii (list_ascii_of_string s)
  | _ => false
  end.

(** The exception that only a [print] of the callback can let out. *)
Definition raised_by_print {Doc} (o : outcome Doc) : bool :=
  match o with
  | Propagated UnicodeEncodeError => true
  | _ => false
  end.

(** The sample library on the console of line 28. *)
Definition sample_update_printing :=
  process_mrn_update_printing sample_doc sample_zlib sample_json sample_console utf_8.
Definition sample_display_printing :=
  display_event_printing sample_doc sample_zlib sample_json sample_console utf_8.

(** A FRAGMENT of one character beyond ASCII, U+00E9. *)
Definition not_ascii := first_update (String "233"%char "") 4 "g1" "src".

(** A [str] with a lone surrogate, which UTF-8 does not encode, is beyond
    the strings of this model, whose characters are below 256.  For a
    sample, [strict_utf_8] is a console on which one string of the model,
    [lone_surrogate], stands for such a [str]. *)
Definition lone_surrogate : string := "\ud800".
Definition strict_utf_8 (s : string) : bool := negb (String.eqb s lone_surrogate).
Definition surrogate_guid := first_update "QUI=" 4 lone_surrogate "src".

(** ** More vocabulary *)

(** What [==] compares: [py_eq] is equality of this key. *)
Definition py_key (v : value) : unit + (Z + string) :=
  match v with
  | VNone => inl tt
  | VBool b => inr (inl (Z.b2z b))
  | VInt z => inr (inl z)
  | VStr s => inr (inr s)
  end.

(** The update is about the envelopes kept under [guid]. *)
Definition of_guid (guid : value) (fields : gmap string value) : bool :=
  match fields !! "GUID" with
  | Some g => py_eq g guid
  | None => false
  end.

(** The update is numbered above 1. *)
Definition numbered_above_one (fields : gmap string value) : Prop :=
  exists v frag_num, fields !! "FRAG_NUM" = Some v /\ int v = ok frag_num /\ 1 < frag_num.

(** All that lines 51-101 take from the fields. *)
Definition reading (fields : gmap string value)
  : option (raising bytes) * option (raising Z) * option value * option value
    * option (raising Z) :=
  (b64decode <$> fields !! "FRAGMENT", int <$> fields !! "FRAG_NUM",
   fields !! "GUID", fields !! "MRN_SRC", int <$> fields !! "TOT_SIZE").

(** An envelope that waits for more bytes; one that holds too many. *)
Definition incomplete (d : envelope) : Prop :=
  tot_size (data d) <> len (FRAGMENT (data d)).

Definition overlong (d : envelope) : Prop :=
  tot_size (data d) < len (FRAGMENT (data d)).

(** The envelope that line 61 finds under [guid] is overlong. *)
Definition stuck (guid : value) (envs : list envelope) : Prop :=
  match entries_of guid envs with
  | d :: _ => overlong d
  | [] => False
  end.

(** The outcomes that can come with a changed list. *)
Definition may_change {Doc} (o : outcome Doc) : bool :=
  match o with
  | ReturnedNone Waiting | Completed _ _ => true
  | _ => false
  end.

Definition is_skipped {Doc} (o : outcome Doc) : bool :=
  match o with
  | Skipped => true
  | _ => false
  end.

Definition is_completed {Doc} (o : outcome Doc) : bool :=
  match o with
  | Completed _ _ => true
  | _ => false
  end.

(** The clause [except IndexError] of line 108 ran. *)
Definition index_clause_ran {Doc} (o : outcome Doc) : bool :=
  match o with
  | Handled except_IndexError | Completed _ (Failed except_IndexError) => true
  | _ => false
  end.

(** The update is numbered 1 or below. *)
Definition numbered_up_to_one (fields : gmap string value) : Prop :=
  exists v frag_num, fields !! "FRAG_NUM" = Some v /\ int v = ok frag_num /\ frag_num <= 1.

(** The outcomes of the updates of [fs] that are about [guid]. *)
Definition outcomes_of {Doc} (guid : value) (fs : list (gmap string value))
    (os : list (outcome Doc)) : list (outcome Doc) :=
  snd <$> filter (fun p => Is_true (of_guid guid (fst p))) (zip fs os).

(** More sample updates: the first fragment of an envelope under another
    GUID; [two_more] with its number sent as digits between blanks and with
    a field that the callback does not know; the story without MRN_SRC; a
    first fragment of three bytes that declares two. *)
Definition other_guid := first_update "WA==" 9 "g2" "src".
Definition two_more_as_text :=
  <[ "FRAG_NUM" := VStr " 2 " ]> (<[ "ACTIV_DATE" := VStr "2025-01-01" ]> two_more).
Definition story_without_source := delete "MRN_SRC" whole_story.
Definition three_for_two := first_update "QUJD" 2 "g1" "src".

Definition sample_display :=
  display_event sample_doc sample_zlib sample_json sample_console.

(** What lines 51-101 can do: the six ways in which they end, each with the
    list that it leaves. *)
Inductive effect (fields_data : json) (envs : list envelope)
  : completion (option bytes) -> list envelope -> Prop :=
| effect_raised e :
    effect fields_data envs (Raised e) envs
| effect_cannot_find :
    effect fields_data envs (Returned CannotFind) envs
| effect_first_waits f guid mrn_src frag_num chunk total :
    fields_data = JObject f ->
    carries f guid mrn_src frag_num chunk ->
    frag_num <= 1 ->
    declares f total ->
    total <> len chunk ->
    effect fields_data envs (Returned Waiting)
      (envs ++ [new_envelope guid mrn_src frag_num total chunk])
| effect_first_completes f guid mrn_src frag_num chunk :
    fields_data = JObject f ->
    carries f guid mrn_src frag_num chunk ->
    frag_num <= 1 ->
    declares f (len chunk) ->
    effect fields_data envs (Normal (Some chunk)) envs
| effect_merged f guid mrn_src frag_num chunk i d :
    fields_data = JObject f ->
    carries f guid mrn_src frag_num chunk ->
    1 < frag_num ->
    guid_index_of guid envs = Some i ->
    envs !! i = Some d ->
    py_eq (MRN_SRC (data d)) mrn_src = true ->
    frag_num = FRAG_NUM (data d) + 1 ->
    tot_size (data d) <> len (FRAGMENT (data d) ++ chunk) ->
    effect fields_data envs (Returned Waiting)
      (alter (merged (FRAGMENT (data d) ++ chunk) frag_num) i envs)
| effect_merged_last f guid mrn_src frag_num chunk i d :
    fields_data = JObject f ->
    carries f guid mrn_src frag_num chunk ->
    1 < frag_num ->
    guid_index_of guid envs = Some i ->
    envs !! i = Some d ->
    py_eq (MRN_SRC (data d)) mrn_src = true ->
    frag_num = FRAG_NUM (data d) + 1 ->
    tot_size (data d) = len (FRAGMENT (data d) ++ chunk) ->
    effect fields_data envs (Normal (Some (FRAGMENT (data d) ++ chunk))) (delete i envs).

(** ** Lines 51-101, case by case *)

Lemma len_app (a b : bytes) : len (a ++ b) = len a + len b.
Proof. unfold len. rewrite length_app. lia. Qed.

Lemma py_eq_refl (v : value) : py_eq v v = true.
Proof.
  destruct v as [| b | z | s]; simpl; auto.
  - destruct b; reflexivity.
  - apply Z.eqb_refl.
  - apply String.eqb_refl.
Qed.

Lemma and_then_eval {A B} (r : raising A) (k : A -> stmt B) envs :
  and_then (eval r) k envs =
    match r with inl e => (Raised e, envs) | inr a => k a envs end.
Proof. unfold and_then, eval. destruct r; reflexivity. Qed.

(** Lines 51-54 read four fields before anything else is done. *)
Lemma try_block_reads (f : gmap string value) envs :
  try_block (JObject f) envs =
    match f !! "FRAGMENT" with
    | None => (Raised KeyError, envs)
    | Some fragment_field =>
        match b64decode fragment_field with
        | inl e => (Raised e, envs)
        | inr fragment =>
            match f !! "FRAG_NUM" with
            | None => (Raised KeyError, envs)
            | Some frag_num_field =>
                match int frag_num_field with
                | inl e => (Raised e, envs)
                | inr frag_num =>
                    match f !! "GUID" with
                    | None => (Raised KeyError, envs)
                    | Some guid =>
                        match f !! "MRN_SRC" with
                        | None => (Raised KeyError, envs)
                        | Some mrn_src =>
                            and_then (if 1 <? frag_num
                                 then later_fragment fragment frag_num guid mrn_src
                                 else first_fragment (JObject f) fragment frag_num guid mrn_src)
                                (fun '(tot_size, fragment) =>
                                   if tot_size =? len fragment
                                   then pure (Some fragment) else pure None)
                                envs
                        end
                    end
                end
            end
        end
    end.
Proof.
  unfold try_block.
  rewrite and_then_eval. unfold subscript at 1.
  destruct (f !! "FRAGMENT") as [vf |]; [| reflexivity]. cbn beta iota delta [ok raise].
  rewrite and_then_eval. destruct (b64decode vf) as [e | fragment]; [reflexivity |].
  rewrite and_then_eval. unfold subscript at 1.
  destruct (f !! "FRAG_NUM") as [vn |]; [| reflexivity]. cbn beta iota delta [ok raise].
  rewrite and_then_eval. destruct (int vn) as [e | frag_num]; [reflexivity |].
  rewrite and_then_eval. unfold subscript at 1.
  destruct (f !! "GUID") as [guid |]; [| reflexivity]. cbn beta iota delta [ok raise].
  rewrite and_then_eval. unfold subscript at 1.
  destruct (f !! "MRN_SRC") as [mrn_src |]; [| reflexivity]. cbn beta iota delta [ok raise].
  reflexivity.
Qed.

(** Merging into, or deleting, an envelope under [guid] is not seen among
    the envelopes under other GUIDs. *)
Lemma others_alter guid (h : envelope -> envelope) i d (envs : list envelope) :
  envs !! i = Some d ->
  py_eq (GUID d) guid = true ->
  (forall x, GUID (h x) = GUID x) ->
  others guid (alter h i envs) = others guid envs.
Proof.
  intros Hd Hg Hh. unfold others.
  revert i Hd. induction envs as [| x envs IH]; intros [| i] Hd; try discriminate.
  - cbn in Hd. injection Hd as ->. cbn [alter list_alter].
    rewrite !filter_cons_False; [reflexivity | |]; rewrite ?Hh, Hg; cbn; tauto.
  - cbn in Hd. cbn [alter list_alter].
    rewrite !filter_cons. rewrite <- (IH i Hd). reflexivity.
Qed.

Lemma others_delete guid i d (envs : list envelope) :
  envs !! i = Some d ->
  py_eq (GUID d) guid = true ->
  others guid (delete i envs) = others guid envs.
Proof.
  intros Hd Hg. unfold others.
  revert i Hd. induction envs as [| x envs IH]; intros [| i] Hd; try discriminate.
  - cbn in Hd. injection Hd as ->. cbn [delete list_delete].
    rewrite filter_cons_False; [reflexivity |]. rewrite Hg. cbn. tauto.
  - cbn in Hd. cbn [delete list_delete].
    rewrite !filter_cons. rewrite <- (IH i Hd). reflexivity.
Qed.

Lemma others_append guid d (envs : list envelope) :
  py_eq (GUID d) guid = true ->
  others guid (envs ++ [d]) = others guid envs.
Proof.
  intros Hg. unfold others. rewrite filter_app, filter_cons_False.
  - apply app_nil_r.
  - rewrite Hg. cbn. tauto.
Qed.

(** What line 61 finds is an envelope of the list, kept under the GUID. *)
Lemma guid_index_of_Some guid (envs : list envelope) i :
  guid_index_of guid envs = Some i ->
  exists d, envs !! i = Some d /\ py_eq (GUID d) guid = true.
Proof.
  unfold guid_index_of. intros H.
  destruct (list_find _ envs) as [[j d] |] eqn:E; [| discriminate].
  cbn in H. injection H as ->.
  apply list_find_Some in E as (Hd & Hp & _).
  exists d. split; [exact Hd |]. apply Is_true_true. exact Hp.
Qed.

Lemma guid_index_of_None guid (envs : list envelope) :
  guid_index_of guid envs = None <-> Forall (fun d => py_eq (GUID d) guid = false) envs.
Proof.
  unfold guid_index_of. rewrite fmap_None, list_find_None.
  apply Forall_iff. intros d. rewrite <- Is_true_false. reflexivity.
Qed.

(** The two branches, as functions of the list. *)
Lemma later_fragment_eq chunk frag_num guid mrn_src (envs : list envelope) :
  later_fragment chunk frag_num guid mrn_src envs =
    match guid_index_of guid envs with
    | None => (Raised TypeError, envs)
    | Some i =>
        match envs !! i with
        | None => (Raised IndexError, envs)
        | Some d =>
            if py_eq (MRN_SRC (data d)) mrn_src && (frag_num =? FRAG_NUM (data d) + 1) then
              let fragment := FRAGMENT (data d) ++ chunk in
              if tot_size (data d) =? len fragment
              then (Normal (tot_size (data d), fragment),
                    delete i (alter (merged fragment frag_num) i envs))
              else (Returned Waiting, alter (merged fragment frag_num) i envs)
            else (Returned CannotFind, envs)
        end
    end.
Proof.
  unfold later_fragment, and_then at 1 2. cbn.
  unfold list_getitem.
  destruct (guid_index_of guid envs) as [i |]; [| reflexivity].
  destruct (envs !! i) as [d |] eqn:Hd; [| reflexivity].
  cbn.
  destruct (py_eq (MRN_SRC (data d)) mrn_src && (frag_num =? FRAG_NUM (data d) + 1));
    [| reflexivity].
  unfold and_then, merge_at, del_at, pure, return_None. cbn.
  destruct (tot_size (data d) =? len (FRAGMENT (data d) ++ chunk)) eqn:E; cbn.
  - rewrite length_alter. apply lookup_lt_Some in Hd.
    destruct (length envs) as [| m]; [lia |].
    replace (i <=? m)%nat with true by (symmetry; apply Nat.leb_le; lia).
    reflexivity.
  - reflexivity.
Qed.

Lemma first_fragment_eq (f : gmap string value) chunk frag_num guid mrn_src
    (envs : list envelope) :
  first_fragment (JObject f) chunk frag_num guid mrn_src envs =
    match f !! "TOT_SIZE" with
    | None => (Raised KeyError, envs)
    | Some tot_size_field =>
        match int tot_size_field with
        | inl e => (Raised e, envs)
        | inr total =>
            if total =? len chunk then (Normal (total, chunk), envs)
            else (Returned Waiting, envs ++ [new_envelope guid mrn_src frag_num total chunk])
        end
    end.
Proof.
  unfold first_fragment. rewrite and_then_eval. unfold subscript.
  destruct (f !! "TOT_SIZE") as [vt |]; [| reflexivity]. cbn beta iota delta [ok raise].
  rewrite and_then_eval.
  destruct (int vt) as [e | total]; [reflexivity |].
  destruct (total =? len chunk); reflexivity.
Qed.

(** Whatever lines 51-101 do to the list, the envelopes kept under other
    GUIDs than the one of the update stay as they are; an update without a
    GUID changes nothing. *)
Lemma try_block_others (fields_data : json) (envs : list envelope) :
  (forall guid, subscript fields_data "GUID" = ok guid ->
     others guid (snd (try_block fields_data envs)) = others guid envs) /\
  (forall e, subscript fields_data "GUID" = raise e ->
     snd (try_block fields_data envs) = envs).
Proof.
  destruct fields_data as [v | f].
  { split; intros; reflexivity. }
  rewrite try_block_reads. unfold subscript.
  destruct (f !! "FRAGMENT") as [vf |]; [| split; intros; reflexivity].
  destruct (b64decode vf) as [e | fragment]; [split; intros; reflexivity |].
  destruct (f !! "FRAG_NUM") as [vn |]; [| split; intros; reflexivity].
  destruct (int vn) as [e | frag_num]; [split; intros; reflexivity |].
  destruct (f !! "GUID") as [guid |]; [| split; intros; reflexivity].
  split; [| discriminate].
  intros g [= <-].
  destruct (f !! "MRN_SRC") as [mrn_src |]; [| reflexivity].
  unfold and_then. destruct (1 <? frag_num).
  - rewrite later_fragment_eq.
    destruct (guid_index_of guid envs) as [i |] eqn:Hi; [| reflexivity].
    destruct (guid_index_of_Some _ _ _ Hi) as (d & Hd & Hg). rewrite Hd.
    destruct (py_eq (MRN_SRC (data d)) mrn_src && (frag_num =? FRAG_NUM (data d) + 1));
      [| reflexivity].
    assert (Ha : others guid (alter (merged (FRAGMENT (data d) ++ fragment) frag_num) i envs)
                 = others guid envs)
      by (apply (others_alter guid _ i d); auto).
    cbn zeta.
    destruct (tot_size (data d) =? len (FRAGMENT (data d) ++ fragment)) eqn:E.
    + rewrite E. cbn [snd pure]. rewrite <- Ha.
      apply (others_delete guid i (merged (FRAGMENT (data d) ++ fragment) frag_num d)).
      * rewrite list_lookup_alter_eq, Hd. reflexivity.
      * exact Hg.
    + exact Ha.
  - rewrite first_fragment_eq.
    destruct (f !! "TOT_SIZE") as [vt |]; [| reflexivity].
    destruct (int vt) as [e | total]; [reflexivity |].
    destruct (total =? len fragment) eqn:E.
    + rewrite E. reflexivity.
    + apply others_append. apply py_eq_refl.
Qed.

(** The test of line 101 holds whenever it is reached: both branches
    return before it unless the sizes agree. *)
Lemma try_block_not_None (fields_data : json) (envs envs' : list envelope) :
  try_block fields_data envs <> (Normal None, envs').
Proof.
  destruct fields_data as [v | f]; [discriminate |].
  rewrite try_block_reads.
  destruct (f !! "FRAGMENT") as [vf |]; [| discriminate].
  destruct (b64decode vf) as [e | fragment]; [discriminate |].
  destruct (f !! "FRAG_NUM") as [vn |]; [| discriminate].
  destruct (int vn) as [e | frag_num]; [discriminate |].
  destruct (f !! "GUID") as [guid |]; [| discriminate].
  destruct (f !! "MRN_SRC") as [mrn_src |]; [| discriminate].
  unfold and_then. destruct (1 <? frag_num).
  - rewrite later_fragment_eq.
    destruct (guid_index_of guid envs) as [i |]; [| discriminate].
    destruct (envs !! i) as [d |]; [| discriminate].
    destruct (py_eq (MRN_SRC (data d)) mrn_src && (frag_num =? FRAG_NUM (data d) + 1));
      [| discriminate].
    cbn zeta.
    destruct (tot_size (data d) =? len (FRAGMENT (data d) ++ fragment)) eqn:E;
      [rewrite E |]; discriminate.
  - rewrite first_fragment_eq.
    destruct (f !! "TOT_SIZE") as [vt |]; [| discriminate].
    destruct (int vt) as [e | total]; [discriminate |].
    destruct (total =? len fragment) eqn:E; [rewrite E |]; discriminate.
Qed.

Lemma try_block_first (f : gmap string value) guid mrn_src frag_num chunk total envs :
  carries f guid mrn_src frag_num chunk ->
  frag_num <= 1 ->
  declares f total ->
  try_block (JObject f) envs =
    if total =? len chunk then (Normal (Some chunk), envs)
    else (Returned Waiting, envs ++ [new_envelope guid mrn_src frag_num total chunk]).
Proof.
  intros ((vf & Hf & Hd) & (vn & Hn & Hi) & Hg & Hs) Hle (vt & Ht & Hti).
  rewrite try_block_reads, Hf, Hd, Hn, Hi, Hg, Hs. cbn beta iota delta [ok].
  destruct (Z.ltb_spec 1 frag_num) as [Hlt | _]; [lia |].
  unfold and_then. rewrite first_fragment_eq, Ht, Hti. cbn beta iota delta [ok].
  destruct (total =? len chunk) eqn:E; [rewrite E |]; reflexivity.
Qed.

Lemma try_block_later (f : gmap string value) guid mrn_src frag_num chunk envs :
  carries f guid mrn_src frag_num chunk ->
  1 < frag_num ->
  try_block (JObject f) envs =
    match guid_index_of guid envs with
    | None => (Raised TypeError, envs)
    | Some i =>
        match envs !! i with
        | None => (Raised IndexError, envs)
        | Some d =>
            if py_eq (MRN_SRC (data d)) mrn_src && (frag_num =? FRAG_NUM (data d) + 1) then
              let fragment := FRAGMENT (data d) ++ chunk in
              if tot_size (data d) =? len fragment
              then (Normal (Some fragment), delete i (alter (merged fragment frag_num) i envs))
              else (Returned Waiting, alter (merged fragment frag_num) i envs)
            else (Returned CannotFind, envs)
        end
    end.
Proof.
  intros ((vf & Hf & Hd) & (vn & Hn & Hi) & Hg & Hs) Hlt.
  rewrite try_block_reads, Hf, Hd, Hn, Hi, Hg, Hs. cbn beta iota delta [ok].
  destruct (Z.ltb_spec 1 frag_num) as [_ | Hle]; [| lia].
  unfold and_then. rewrite later_fragment_eq.
  destruct (guid_index_of guid envs) as [i |]; [| reflexivity].
  destruct (envs !! i) as [d |]; [| reflexivity].
  destruct (py_eq (MRN_SRC (data d)) mrn_src && (frag_num =? FRAG_NUM (data d) + 1));
    [| reflexivity].
  cbn zeta.
  destruct (tot_size (data d) =? len (FRAGMENT (data d) ++ chunk)) eqn:E; [rewrite E |];
    reflexivity.
Qed.

(** ** Properties of the callback *)

Section Properties.

Variable Doc : Type.
Variable zlib_decompress : bytes -> option bytes.
Variable json_loads : bytes -> option Doc.
Variable console_encodes : Doc -> bool.

Local Abbreviation process :=
  (process_mrn_update Doc zlib_decompress json_loads console_encodes).
Local Abbreviation deliver :=
  (delivered Doc zlib_decompress json_loads console_encodes).
Local Abbreviation run_all :=
  (run Doc zlib_decompress json_loads console_encodes).

Lemma process_update (f : gmap string value) envs :
  process (update f) envs =
    match try_block (JObject f) envs with
    | (Raised e, envs') => (Handled (except e), envs')
    | (Returned r, envs') => (ReturnedNone r, envs')
    | (Normal None, envs') => (Skipped, envs')
    | (Normal (Some fragment), envs') => (Completed fragment (deliver fragment), envs')
    end.
Proof. unfold process_mrn_update, update. rewrite lookup_singleton_eq. reflexivity. Qed.

(** C2. An update numbered 1 whose decoded chunk has exactly the declared
    TOT_SIZE is completed at once: the chunk itself is what line 103
    decompresses, and [_news_envelopes] is left as it was. *)
Theorem single_fragment_completes
    (f : gmap string value) guid mrn_src chunk (envs : list envelope) :
  carries f guid mrn_src 1 chunk ->
  declares f (len chunk) ->
  process (update f) envs = (Completed chunk (deliver chunk), envs).
Proof.
  intros Hc Hd.
  rewrite process_update, (try_block_first f guid mrn_src 1 chunk (len chunk)) by (auto; lia).
  rewrite Z.eqb_refl. reflexivity.
Qed.

(** C9. An update whose FRAG_NUM is any integer up to 1 (zero and the
    negative ones too) takes the branch of the first fragment: TOT_SIZE is
    read, so that its absence is a [KeyError]; a chunk of another length
    than TOT_SIZE is appended as a new envelope that records this FRAG_NUM;
    a chunk of that length is completed at once. *)
Theorem frag_num_up_to_one_is_first
    (f : gmap string value) guid mrn_src frag_num chunk (envs : list envelope) :
  carries f guid mrn_src frag_num chunk ->
  frag_num <= 1 ->
  (f !! "TOT_SIZE" = None ->
     process (update f) envs = (Handled except_KeyError, envs)) /\
  (forall total, declares f total ->
     process (update f) envs =
       if total =? len chunk then (Completed chunk (deliver chunk), envs)
       else (ReturnedNone Waiting,
             envs ++ [{| GUID := guid;
                         data := {| FRAGMENT := chunk; MRN_SRC := mrn_src;
                                    FRAG_NUM := frag_num; tot_size := total |} |}])).
Proof.
  intros Hc Hle. split.
  - intros Hnone. destruct Hc as ((vf & Hf & Hd) & (vn & Hn & Hi) & Hg & Hs).
    rewrite process_update, try_block_reads, Hf, Hd, Hn, Hi, Hg, Hs.
    cbn beta iota delta [ok].
    destruct (Z.ltb_spec 1 frag_num) as [Hlt | _]; [lia |].
    unfold and_then. rewrite first_fragment_eq, Hnone. reflexivity.
  - intros total Hd.
    rewrite process_update, (try_block_first f guid mrn_src frag_num chunk total) by auto.
    destruct (total =? len chunk); reflexivity.
Qed.

(** C5. An update numbered above 1 never changes [_news_envelopes] when it
    does not fit, but the three ways of not fitting do not end alike: with an
    envelope under its GUID whose MRN_SRC or next number differs, the message
    of line 81 is printed and line 82 returns; with no envelope under its
    GUID, line 62 indexes the list by [None], which raises [TypeError], and
    the clause of line 117 handles the update. *)
Theorem unfit_fragment_leaves_envelopes
    (f : gmap string value) guid mrn_src frag_num chunk (envs : list envelope) :
  carries f guid mrn_src frag_num chunk ->
  1 < frag_num ->
  (guid_index_of guid envs = None ->
     process (update f) envs = (Handled except_Exception, envs)) /\
  (forall i d,
     guid_index_of guid envs = Some i ->
     envs !! i = Some d ->
     py_eq (MRN_SRC (data d)) mrn_src = false \/ frag_num <> FRAG_NUM (data d) + 1 ->
     process (update f) envs = (ReturnedNone CannotFind, envs)).
Proof.
  intros Hc Hlt.
  pose proof (try_block_later f guid mrn_src frag_num chunk envs Hc Hlt) as E.
  split.
  - intros Hnone. rewrite process_update, E, Hnone. reflexivity.
  - intros i d Hi Hd Hbad. rewrite process_update, E, Hi, Hd.
    destruct Hbad as [Hsrc | Hnum].
    + rewrite Hsrc. reflexivity.
    + destruct (Z.eqb_spec frag_num (FRAG_NUM (data d) + 1)) as [-> | _]; [congruence |].
      rewrite andb_false_r. reflexivity.
Qed.

(** C4, as the code has it. A fragment that fits the envelope under its GUID
    (same MRN_SRC, next number) and takes the accumulated bytes beyond the
    recorded total size is merged like any fragment of an unfinished
    envelope: line 76 returns, and the envelope stays in the list, longer
    than its total size. *)
Theorem overlong_fragment_is_merged
    (f : gmap string value) guid mrn_src frag_num chunk (envs : list envelope) i d :
  carries f guid mrn_src frag_num chunk ->
  1 < frag_num ->
  guid_index_of guid envs = Some i ->
  envs !! i = Some d ->
  py_eq (MRN_SRC (data d)) mrn_src = true ->
  frag_num = FRAG_NUM (data d) + 1 ->
  tot_size (data d) < len (FRAGMENT (data d) ++ chunk) ->
  let envs' := alter (merged (FRAGMENT (data d) ++ chunk) frag_num) i envs in
  let d' := merged (FRAGMENT (data d) ++ chunk) frag_num d in
  process (update f) envs = (ReturnedNone Waiting, envs') /\
  envs' !! i = Some d' /\
  tot_size (data d') < len (FRAGMENT (data d')).
Proof.
  intros Hc Hlt Hi Hd Hsrc Hnum Hover envs' d'.
  split; [| split].
  - rewrite process_update, (try_block_later f guid mrn_src frag_num chunk envs Hc Hlt).
    rewrite Hi, Hd, Hsrc. subst frag_num. rewrite Z.eqb_refl. cbn.
    destruct (Z.eqb_spec (tot_size (data d)) (len (FRAGMENT (data d) ++ chunk))) as [E | _];
      [lia | reflexivity].
  - unfold envs'. rewrite list_lookup_alter_eq, Hd. reflexivity.
  - exact Hover.
Qed.

(** C3, as the code has it. The first fragment of an unfinished envelope is
    appended to the list behind every envelope that is there, also behind
    one under the same GUID: that one is kept, the list then holds one more
    envelope under the GUID, and line 61 goes on finding the older one. *)
Theorem first_fragment_is_appended
    (f : gmap string value) guid mrn_src frag_num chunk total (envs : list envelope) :
  carries f guid mrn_src frag_num chunk ->
  frag_num <= 1 ->
  declares f total ->
  total <> len chunk ->
  let d := new_envelope guid mrn_src frag_num total chunk in
  process (update f) envs = (ReturnedNone Waiting, envs ++ [d]) /\
  entries_of guid (envs ++ [d]) = entries_of guid envs ++ [d] /\
  (forall i, guid_index_of guid envs = Some i -> guid_index_of guid (envs ++ [d]) = Some i).
Proof.
  intros Hc Hle Hd Hne d. split; [| split].
  - rewrite process_update, (try_block_first f guid mrn_src frag_num chunk total) by auto.
    destruct (Z.eqb_spec total (len chunk)); [contradiction | reflexivity].
  - unfold entries_of. rewrite filter_app. f_equal.
    rewrite filter_cons_True; [reflexivity |].
    cbn. rewrite py_eq_refl. exact I.
  - intros i Hi. unfold guid_index_of in *.
    destruct (list_find _ envs) as [[j x] |] eqn:E; [| discriminate].
    rewrite (list_find_app_l _ _ _ _ _ E). exact Hi.
Qed.

(** Line 43 is outside the [try]: a message without ['Fields'] raises. *)
Lemma missing_fields_propagate (m : gmap string json) (envs : list envelope) :
  m !! "Fields" = None ->
  process m envs = (Propagated KeyError, envs).
Proof. intros H. unfold process_mrn_update. rewrite H. reflexivity. Qed.

(** Any failure of line 51 leaves the list alone; the clause depends on
    what was raised. *)
Lemma failed_decode_leaves_envelopes
    (f : gmap string value) (v : value) (e : exn) (envs : list envelope) :
  f !! "FRAGMENT" = Some v ->
  b64decode v = raise e ->
  process (update f) envs = (Handled (except e), envs).
Proof.
  intros Hf Hd. rewrite process_update, try_block_reads, Hf, Hd. reflexivity.
Qed.

(** C8, as the code has it. An envelope that reached line 103: when
    [zlib.decompress] raises, the clause of line 112 handles it; when
    [json.loads] raises, no clause names its exception and the last clause,
    [except Exception], handles it, the clause that also handles every
    [TypeError] and [ValueError] of the callback. *)
Theorem decode_failures_by_clause
    (m : gmap string json) (envs envs' : list envelope) (fragment : bytes) (d : decoded Doc) :
  process m envs = (Completed fragment d, envs') ->
  (zlib_decompress fragment = None -> d = Failed except_zlib_error) /\
  (forall decompressed_data,
     zlib_decompress fragment = Some decompressed_data ->
     json_loads decompressed_data = None ->
     d = Failed except_Exception) /\
  except_zlib_error <> except_Exception /\
  (forall e, except e = except_Exception <-> e = TypeError \/ e = ValueError).
Proof.
  intros H.
  assert (Hd : d = deliver fragment).
  { unfold process_mrn_update in H.
    destruct (m !! "Fields") as [fields_data |]; [| discriminate].
    destruct (try_block fields_data envs) as [[[fragment' |] | r | e] envs''];
      try discriminate.
    injection H as <- <- <-. reflexivity. }
  subst d. unfold delivered, decompress_and_print.
  split; [| split; [| split]].
  - intros ->. reflexivity.
  - intros data -> ->. reflexivity.
  - discriminate.
  - intros e. split.
    + destruct e; cbn; intros; try discriminate; auto.
    + intros [-> | ->]; reflexivity.
Qed.

Lemma run_cons (m : gmap string json) ms envs :
  run_all (m :: ms) envs =
    (fst (process m envs) :: fst (run_all ms (snd (process m envs))),
     snd (run_all ms (snd (process m envs)))).
Proof.
  cbn [run]. destruct (process m envs) as [o envs1]. cbn [fst snd].
  destruct (run_all ms envs1) as [os envs2]. reflexivity.
Qed.

(** The envelope of [guid] is the last of the list and the only one under
    that GUID: each later fragment is merged into it, and the one that
    brings it to its total size removes it. *)
Lemma later_updates_merge guid mrn_src total (envs : list envelope) :
  guid_index_of guid envs = None ->
  forall (fs : list (gmap string value)) (cs : list bytes) (k : Z) (acc : bytes),
    fs <> [] ->
    0 < k ->
    follow guid mrn_src (k + 1) fs cs ->
    (forall j, (0 < j < length cs)%nat -> len acc + len (concat (take j cs)) < total) ->
    len acc + len (concat cs) = total ->
    run_all (map update fs) (envs ++ [new_envelope guid mrn_src k total acc]) =
      (replicate (length fs - 1) (ReturnedNone Waiting)
         ++ [Completed (acc ++ concat cs) (deliver (acc ++ concat cs))],
       envs).
Proof.
  intros Hnone fs.
  induction fs as [| f fs IH]; intros cs k acc Hne Hk Hfollow Hprefix Hsum; [congruence |].
  destruct cs as [| c cs]; [destruct Hfollow |].
  destruct Hfollow as [Hc Hfollow].
  set (e := new_envelope guid mrn_src k total acc).
  assert (Hfind : guid_index_of guid (envs ++ [e]) = Some (length envs)).
  { unfold guid_index_of in *. apply fmap_None in Hnone.
    rewrite (list_find_app_r _ _ _ Hnone). cbn [list_find].
    rewrite decide_True; [reflexivity |]. cbn. rewrite py_eq_refl. exact I. }
  assert (Hlook : (envs ++ [e]) !! length envs = Some e) by apply list_lookup_middle, eq_refl.
  assert (Hstep : try_block (JObject f) (envs ++ [e]) =
            if total =? len (acc ++ c)
            then (Normal (Some (acc ++ c)), envs)
            else (Returned Waiting, envs ++ [new_envelope guid mrn_src (k + 1) total (acc ++ c)])).
  { rewrite (try_block_later f guid mrn_src (k + 1) c) by (auto; lia).
    rewrite Hfind, Hlook. cbn [e new_envelope data MRN_SRC FRAG_NUM FRAGMENT tot_size].
    rewrite py_eq_refl, Z.eqb_refl. cbn [andb].
    replace (length envs) with (length envs + 0)%nat by lia.
    rewrite alter_app_r. cbn zeta.
    destruct (total =? len (acc ++ c)).
    - replace (length envs + 0)%nat with (length envs) by lia.
      cbn [alter list_alter]. rewrite delete_middle, app_nil_r. reflexivity.
    - reflexivity. }
  assert (Hlen : len (acc ++ c) = len acc + len c) by apply len_app.
  rewrite map_cons, run_cons, process_update, Hstep.
  destruct fs as [| f' fs].
  - destruct cs as [| c' cs]; [| destruct Hfollow].
    cbn [concat] in *. rewrite app_nil_r in *.
    destruct (Z.eqb_spec total (len (acc ++ c))) as [_ | Hneq]; [| lia].
    reflexivity.
  - destruct cs as [| c' cs]; [destruct Hfollow |].
    assert (Hlt : len acc + len c < total).
    { specialize (Hprefix 1%nat). cbn in Hprefix. rewrite app_nil_r in Hprefix.
      apply Hprefix. lia. }
    destruct (Z.eqb_spec total (len (acc ++ c))) as [Heq | _]; [lia |].
    cbn [fst snd].
    rewrite (IH (c' :: cs) (k + 1) (acc ++ c)); try assumption; try lia; try discriminate.
    + cbn [fst snd length concat]. rewrite <- app_assoc.
      replace (S (S (length fs)) - 1)%nat with (S (S (length fs) - 1)) by lia.
      reflexivity.
    + intros j Hj. rewrite Hlen.
      specialize (Hprefix (S j)). cbn [take concat length] in Hprefix.
      rewrite len_app in Hprefix. cbn [length] in Hj. lia.
    + rewrite Hlen.
      change (concat (c :: c' :: cs)) with (c ++ concat (c' :: cs)) in Hsum.
      rewrite len_app in Hsum. lia.
Qed.

(** C1, as the code has it. From a list that holds no envelope under their
    GUID, the updates that carry the chunks [c1 :: cs] of one envelope,
    numbered from 1 with one MRN_SRC, the first one declaring as TOT_SIZE the
    common length of the chunks while every shorter run of them stays below
    it: each update but the last returns at line 76 or 98, the last one
    hands the chunks, joined in their order, to line 103, and the list is
    again what it was. *)
Theorem fragments_reassemble
    guid mrn_src total (f1 : gmap string value) (fs : list (gmap string value))
    (c1 : bytes) (cs : list bytes) (envs : list envelope) :
  guid_index_of guid envs = None ->
  carries f1 guid mrn_src 1 c1 ->
  declares f1 total ->
  follow guid mrn_src 2 fs cs ->
  (forall j, (0 < j < length (c1 :: cs))%nat -> len (concat (take j (c1 :: cs))) < total) ->
  len (concat (c1 :: cs)) = total ->
  run_all (map update (f1 :: fs)) envs =
    (replicate (length fs) (ReturnedNone Waiting)
       ++ [Completed (concat (c1 :: cs)) (deliver (concat (c1 :: cs)))],
     envs).
Proof.
  intros Hnone Hc Hd Hfollow Hprefix Hsum.
  rewrite map_cons, run_cons, process_update.
  rewrite (try_block_first f1 guid mrn_src 1 c1 total) by (auto; lia).
  destruct fs as [| f2 fs].
  - destruct cs as [| c2 cs]; [| destruct Hfollow].
    cbn [concat] in *. rewrite app_nil_r in *.
    destruct (Z.eqb_spec total (len c1)) as [_ | Hneq]; [| lia].
    reflexivity.
  - destruct cs as [| c2 cs]; [destruct Hfollow |].
    assert (Hlt : len c1 < total).
    { specialize (Hprefix 1%nat). cbn in Hprefix. rewrite app_nil_r in Hprefix.
      apply Hprefix. lia. }
    destruct (Z.eqb_spec total (len c1)) as [Heq | _]; [lia |].
    cbn [fst snd].
    rewrite (later_updates_merge guid mrn_src total envs Hnone
               (f2 :: fs) (c2 :: cs) 1 c1); try assumption; try lia; try discriminate.
    + cbn [fst snd length concat].
      replace (S (length fs) - 1)%nat with (length fs) by lia.
      reflexivity.
    + intros j Hj. specialize (Hprefix (S j)). cbn [take concat length] in Hprefix.
      rewrite len_app in Hprefix. cbn [length] in Hj. lia.
    + change (concat (c1 :: c2 :: cs)) with (c1 ++ concat (c2 :: cs)) in Hsum.
      rewrite len_app in Hsum. lia.
Qed.

(** C10. Once FRAG_NUM exceeds 1, TOT_SIZE is not read: two updates that
    differ at most in their TOT_SIZE field (its value or its presence) leave
    the same outcome and the same list from the same [_news_envelopes]. *)
Theorem tot_size_unread_after_first
    (f1 f2 : gmap string value) (frag_num : Z) (envs : list envelope) :
  delete "TOT_SIZE" f1 = delete "TOT_SIZE" f2 ->
  (exists v, f1 !! "FRAG_NUM" = Some v /\ int v = ok frag_num) ->
  1 < frag_num ->
  process (update f1) envs = process (update f2) envs.
Proof.
  intros Hdel (vn & Hn & Hi) Hlt.
  assert (Hk : forall k : string, k <> "TOT_SIZE" -> f1 !! k = f2 !! k).
  { intros k Hne.
    rewrite <- (lookup_delete_ne f1 "TOT_SIZE" k), <- (lookup_delete_ne f2 "TOT_SIZE" k)
      by congruence.
    rewrite Hdel. reflexivity. }
  rewrite !process_update.
  enough (E : try_block (JObject f1) envs = try_block (JObject f2) envs) by (rewrite E; reflexivity).
  rewrite !try_block_reads, <- !Hk by discriminate.
  destruct (f1 !! "FRAGMENT") as [vf |]; [| reflexivity].
  destruct (b64decode vf) as [e | fragment]; [reflexivity |].
  rewrite Hn, Hi.
  destruct (f1 !! "GUID") as [guid |]; [| reflexivity].
  destruct (f1 !! "MRN_SRC") as [mrn_src |]; [| reflexivity].
  cbn beta iota delta [ok].
  destruct (Z.ltb_spec 1 frag_num) as [_ | Hle]; [| lia].
  reflexivity.
Qed.

End Properties.

(** ** The callback on sample updates *)

Ltac carried :=
  split; [eexists; split; reflexivity |
  split; [eexists; split; reflexivity |
  split; reflexivity]].

Ltac declared := eexists; split; reflexivity.

(** The story in two updates, from the empty list. *)
Lemma fragments_reassemble_witness :
  sample_run (map update [story_part1; story_part2]) [] =
    ([ReturnedNone Waiting; Completed zlib_of_braces (News EmptyObject)], []).
Proof.
  apply (fragments_reassemble sample_doc sample_zlib sample_json sample_console
           (VStr "g1") (VStr "src") 10 story_part1 [story_part2]
           (map byte_of_N [120; 156; 171; 174; 5; 0]%N)
           [map byte_of_N [1; 117; 0; 249]%N] []).
  - reflexivity.
  - carried.
  - declared.
  - split; [carried | exact I].
  - intros j Hj. cbn [length] in Hj.
    assert (j = 1%nat) as -> by lia. reflexivity.
  - reflexivity.
Defined.

(** C1 fails from a list that holds an older envelope under the GUID, as
    the update [abandoned] leaves it: the two updates [two_bytes] and
    [two_more] carry the chunks "AB" and "CD" of an envelope of 4 bytes,
    numbered 1 and 2, and yet [two_more] completes nothing: line 61 finds
    the older envelope and merges "CD" into it. *)
Lemma stale_envelope_takes_fragment :
  let older := new_envelope (VStr "g1") (VStr "src") 1 9 (ascii_bytes "X") in
  sample_run [update abandoned] [] = ([ReturnedNone Waiting], [older]) /\
  carries two_bytes (VStr "g1") (VStr "src") 1 (ascii_bytes "AB") /\
  declares two_bytes 4 /\
  follow (VStr "g1") (VStr "src") 2 [two_more] [ascii_bytes "CD"] /\
  len (ascii_bytes "AB") < 4 /\
  len (concat [ascii_bytes "AB"; ascii_bytes "CD"]) = 4 /\
  sample_run (map update [two_bytes; two_more]) [older] =
    ([ReturnedNone Waiting; ReturnedNone Waiting],
     [new_envelope (VStr "g1") (VStr "src") 2 9 (ascii_bytes "XCD");
      new_envelope (VStr "g1") (VStr "src") 1 4 (ascii_bytes "AB")]).
Proof.
  intros older.
  split; [reflexivity |].
  split; [carried |].
  split; [declared |].
  split; [split; [carried | exact I] |].
  repeat split; reflexivity.
Qed.

(** The story in one update. *)
Lemma single_fragment_completes_witness :
  sample_update (update whole_story) [] =
    (Completed zlib_of_braces (News EmptyObject), []).
Proof.
  apply (single_fragment_completes sample_doc sample_zlib sample_json sample_console
           whole_story (VStr "g1") (VStr "src") zlib_of_braces []).
  - carried.
  - declared.
Defined.

(** C3 fails after two first fragments under one GUID: both envelopes are
    in the list. *)
Lemma two_envelopes_one_guid :
  snd (sample_run (map update [abandoned; two_bytes]) []) =
    [new_envelope (VStr "g1") (VStr "src") 1 9 (ascii_bytes "X");
     new_envelope (VStr "g1") (VStr "src") 1 4 (ascii_bytes "AB")] /\
  length (entries_of (VStr "g1")
            (snd (sample_run (map update [abandoned; two_bytes]) []))) = 2%nat.
Proof. split; reflexivity. Qed.

(** A first fragment behind an older envelope under its GUID. *)
Lemma first_fragment_is_appended_witness :
  let older := new_envelope (VStr "g1") (VStr "src") 1 9 (ascii_bytes "X") in
  let d := new_envelope (VStr "g1") (VStr "src") 1 4 (ascii_bytes "AB") in
  sample_update (update two_bytes) [older] = (ReturnedNone Waiting, [older; d]) /\
  entries_of (VStr "g1") [older; d] = [older; d] /\
  guid_index_of (VStr "g1") [older; d] = Some 0%nat.
Proof.
  intros older d.
  destruct (first_fragment_is_appended sample_doc sample_zlib sample_json sample_console
              two_bytes (VStr "g1") (VStr "src") 1 (ascii_bytes "AB") 4 [older])
    as (H1 & H2 & H3).
  - carried.
  - lia.
  - declared.
  - discriminate.
  - split; [exact H1 | split; [exact H2 | apply H3; reflexivity]].
Defined.

(** C4 fails on a second fragment of three bytes for an envelope of four
    that holds two: no clause and no message rejects it, line 76 returns,
    and the envelope stays in the list with five bytes. *)
Lemma overlong_envelope_kept :
  sample_run (map update [two_bytes; three_more]) [] =
    ([ReturnedNone Waiting; ReturnedNone Waiting],
     [new_envelope (VStr "g1") (VStr "src") 2 4 (ascii_bytes "ABCDE")]) /\
  4 < len (ascii_bytes "ABCDE").
Proof. split; reflexivity. Qed.

(** Three more bytes for an envelope of four that holds two. *)
Lemma overlong_fragment_is_merged_witness :
  let d := new_envelope (VStr "g1") (VStr "src") 1 4 (ascii_bytes "AB") in
  let d' := new_envelope (VStr "g1") (VStr "src") 2 4 (ascii_bytes "ABCDE") in
  sample_update (update three_more) [d] = (ReturnedNone Waiting, [d']) /\
  [d'] !! 0%nat = Some d' /\
  tot_size (data d') < len (FRAGMENT (data d')).
Proof.
  intros d d'.
  apply (overlong_fragment_is_merged sample_doc sample_zlib sample_json sample_console
           three_more (VStr "g1") (VStr "src") 2 (ascii_bytes "CDE") [d] 0%nat d).
  - carried.
  - lia.
  - reflexivity.
  - reflexivity.
  - reflexivity.
  - reflexivity.
  - reflexivity.
Defined.

(** A second fragment without an envelope, and one from another source. *)
Lemma unfit_fragment_leaves_envelopes_witness :
  sample_update (update two_more) [] = (Handled except_Exception, []) /\
  sample_update (update two_more)
      [new_envelope (VStr "g1") (VStr "other") 1 4 (ascii_bytes "AB")] =
    (ReturnedNone CannotFind,
     [new_envelope (VStr "g1") (VStr "other") 1 4 (ascii_bytes "AB")]).
Proof.
  split.
  - apply (unfit_fragment_leaves_envelopes sample_doc sample_zlib sample_json sample_console
             two_more (VStr "g1") (VStr "src") 2 (ascii_bytes "CD") []).
    + carried.
    + lia.
    + reflexivity.
  - apply (unfit_fragment_leaves_envelopes sample_doc sample_zlib sample_json sample_console
             two_more (VStr "g1") (VStr "src") 2 (ascii_bytes "CD")
             [new_envelope (VStr "g1") (VStr "other") 1 4 (ascii_bytes "AB")])
      with (i := 0%nat) (d := new_envelope (VStr "g1") (VStr "other") 1 4 (ascii_bytes "AB")).
    + carried.
    + lia.
    + reflexivity.
    + reflexivity.
    + left. reflexivity.
Defined.

(** C8 fails on an envelope that decompresses to the empty byte string:
    [json.loads] raises on it, and the clause that handles the story is
    [except Exception], the one that handles the [TypeError] of an update
    without an envelope. *)
Lemma parse_failure_in_catch_all :
  sample_zlib zlib_of_empty = Some [] /\
  sample_json [] = None /\
  sample_update (update not_json) [] =
    (Completed zlib_of_empty (Failed except_Exception), []) /\
  sample_update (update two_more) [] = (Handled except_Exception, []).
Proof. repeat split; reflexivity. Qed.

(** An envelope that is no JSON text, and one that is no stream. *)
Lemma decode_failures_by_clause_witness :
  sample_update (update not_json) [] =
    (Completed zlib_of_empty (Failed except_Exception), []) /\
  sample_update (update not_a_stream) [] =
    (Completed (ascii_bytes "ABC") (Failed except_zlib_error), []).
Proof.
  split.
  - destruct (decode_failures_by_clause sample_doc sample_zlib sample_json sample_console
                (update not_json) [] [] zlib_of_empty
                (delivered sample_doc sample_zlib sample_json sample_console zlib_of_empty)
                eq_refl)
      as (_ & H & _).
    rewrite <- (H []); reflexivity.
  - destruct (decode_failures_by_clause sample_doc sample_zlib sample_json sample_console
                (update not_a_stream) [] [] (ascii_bytes "ABC")
                (delivered sample_doc sample_zlib sample_json sample_console (ascii_bytes "ABC"))
                eq_refl)
      as (H & _).
    rewrite <- H; reflexivity.
Defined.

(** A fragment numbered 0. *)
Lemma frag_num_up_to_one_is_first_witness :
  sample_update (update zeroth) [] =
    (ReturnedNone Waiting, [new_envelope (VStr "g1") (VStr "src") 0 4 (ascii_bytes "AB")]).
Proof.
  destruct (frag_num_up_to_one_is_first sample_doc sample_zlib sample_json sample_console
              zeroth (VStr "g1") (VStr "src") 0 (ascii_bytes "AB") [])
    as (_ & H).
  - carried.
  - lia.
  - apply (H 4). declared.
Defined.

(** A second fragment with and without a TOT_SIZE that is no number. *)
Lemma tot_size_unread_after_first_witness :
  sample_update (update (<[ "TOT_SIZE" := VStr "none" ]> two_more)) [] =
  sample_update (update two_more) [].
Proof.
  apply (tot_size_unread_after_first sample_doc sample_zlib sample_json sample_console
           (<[ "TOT_SIZE" := VStr "none" ]> two_more) two_more 2 []).
  - reflexivity.
  - eexists. split; reflexivity.
  - lia.
Defined.

(** ** What a call can do to the list *)

Lemma py_eq_key (a b : value) : py_eq a b = true <-> py_key a = py_key b.
Proof.
  destruct a as [| x | x | x], b as [| y | y | y]; cbn;
    try (split; [discriminate | discriminate]);
    try (split; reflexivity).
  - rewrite Z.eqb_eq. split; [intros ->; reflexivity | intros [= H]; exact H].
  - rewrite Z.eqb_eq. split; [intros ->; reflexivity | intros [= H]; exact H].
  - rewrite Z.eqb_eq. split; [intros ->; reflexivity | intros [= H]; exact H].
  - rewrite Z.eqb_eq. split; [intros ->; reflexivity | intros [= H]; exact H].
  - rewrite String.eqb_eq. split; [intros ->; reflexivity | intros [= H]; exact H].
Qed.

Lemma py_eq_sym (a b : value) : py_eq a b = py_eq b a.
Proof.
  destruct (py_eq a b) eqn:E1, (py_eq b a) eqn:E2; try reflexivity.
  - apply py_eq_key in E1. symmetry in E1. apply py_eq_key in E1. congruence.
  - apply py_eq_key in E2. symmetry in E2. apply py_eq_key in E2. congruence.
Qed.

(** Values that are equal are equal to the same values. *)
Lemma py_eq_congr (a b x : value) : py_eq a b = true -> py_eq x a = py_eq x b.
Proof.
  intros H. apply py_eq_key in H.
  destruct (py_eq x a) eqn:E1, (py_eq x b) eqn:E2; try reflexivity.
  - apply py_eq_key in E1. rewrite H in E1. apply py_eq_key in E1. congruence.
  - apply py_eq_key in E2. rewrite <- H in E2. apply py_eq_key in E2. congruence.
Qed.

Lemma delete_alter_same {A} (h : A -> A) i (l : list A) :
  delete i (alter h i l) = delete i l.
Proof.
  revert i. induction l as [| x l IH]; intros [| i]; cbn; try reflexivity.
  f_equal. apply IH.
Qed.

(** The six ways are all there is. *)
Lemma try_block_effect (fields_data : json) (envs : list envelope) :
  effect fields_data envs (fst (try_block fields_data envs))
    (snd (try_block fields_data envs)).
Proof.
  destruct fields_data as [v | f]; [apply effect_raised |].
  rewrite try_block_reads.
  destruct (f !! "FRAGMENT") as [vf |] eqn:Hf; [| apply effect_raised].
  destruct (b64decode vf) as [e | chunk] eqn:Hd; [apply effect_raised |].
  destruct (f !! "FRAG_NUM") as [vn |] eqn:Hn; [| apply effect_raised].
  destruct (int vn) as [e | frag_num] eqn:Hi; [apply effect_raised |].
  destruct (f !! "GUID") as [guid |] eqn:Hg; [| apply effect_raised].
  destruct (f !! "MRN_SRC") as [mrn_src |] eqn:Hs; [| apply effect_raised].
  assert (Hc : carries f guid mrn_src frag_num chunk).
  { split; [exists vf; auto | split; [exists vn; auto | auto]]. }
  unfold and_then. destruct (Z.ltb_spec 1 frag_num) as [Hlt | Hle].
  - rewrite later_fragment_eq.
    destruct (guid_index_of guid envs) as [i |] eqn:Hgi; [| apply effect_raised].
    destruct (envs !! i) as [d |] eqn:Hlk; [| apply effect_raised].
    destruct (py_eq (MRN_SRC (data d)) mrn_src) eqn:Hsrc; [| apply effect_cannot_find].
    destruct (Z.eqb_spec frag_num (FRAG_NUM (data d) + 1)) as [Hnum | _];
      [| apply effect_cannot_find].
    cbn [andb]. cbn zeta.
    destruct (Z.eqb_spec (tot_size (data d)) (len (FRAGMENT (data d) ++ chunk)))
      as [Heq | Hne].
    + rewrite (proj2 (Z.eqb_eq _ _) Heq). cbn [fst snd pure].
      rewrite delete_alter_same.
      eapply effect_merged_last; eauto.
    + eapply effect_merged; eauto.
  - rewrite first_fragment_eq.
    destruct (f !! "TOT_SIZE") as [vt |] eqn:Ht; [| apply effect_raised].
    destruct (int vt) as [e | total] eqn:Hti; [apply effect_raised |].
    destruct (Z.eqb_spec total (len chunk)) as [Heq | Hne].
    + rewrite (proj2 (Z.eqb_eq _ _) Heq). cbn [fst snd pure]. subst total.
      eapply effect_first_completes; eauto. exists vt. auto.
    + eapply effect_first_waits; eauto. exists vt. auto.
Qed.

Lemma alter_is_insert {A} (h : A -> A) i (l : list A) x :
  l !! i = Some x -> alter h i l = <[i := h x]> l.
Proof.
  revert i. induction l as [| y l IH]; intros [| i] H; cbn in *; try discriminate.
  - injection H as ->. reflexivity.
  - f_equal. apply IH. exact H.
Qed.

Section Effects.

Variable Doc : Type.
Variable zlib_decompress : bytes -> option bytes.
Variable json_loads : bytes -> option Doc.
Variable console_encodes : Doc -> bool.

Local Abbreviation process :=
  (process_mrn_update Doc zlib_decompress json_loads console_encodes).
Local Abbreviation deliver :=
  (delivered Doc zlib_decompress json_loads console_encodes).
Local Abbreviation run_all :=
  (run Doc zlib_decompress json_loads console_encodes).

(** A call either finds no ['Fields'] and raises, or ends in one of the six
    ways of lines 51-101. *)
Lemma process_effect (m : gmap string json) (envs : list envelope) o envs' :
  process m envs = (o, envs') ->
  (m !! "Fields" = None /\ o = Propagated KeyError /\ envs' = envs) \/
  (exists fields_data c,
     m !! "Fields" = Some fields_data /\
     effect fields_data envs c envs' /\
     o = match c with
         | Raised e => Handled (except e)
         | Returned r => ReturnedNone r
         | Normal None => Skipped
         | Normal (Some fragment) => Completed fragment (deliver fragment)
         end).
Proof.
  unfold process_mrn_update. intros H.
  destruct (m !! "Fields") as [fields_data |]; [right | left].
  - pose proof (try_block_effect fields_data envs) as He.
    destruct (try_block fields_data envs) as [c envs1]. cbn [fst snd] in He.
    exists fields_data, c.
    destruct c as [[fragment |] | r | e]; injection H as <- <-; auto.
  - injection H as <- <-. auto.
Qed.

(** X2. The test of line 101 never fails: no call falls off the end of the
    [try] without decompressing. *)
Theorem line_101_always_holds (m : gmap string json) (envs : list envelope) :
  is_skipped (fst (process m envs)) = false.
Proof.
  destruct (process m envs) as [o envs'] eqn:H. cbn [fst].
  destruct (process_effect m envs o envs' H) as [(_ & -> & _) | (fd & c & _ & He & ->)];
    [reflexivity |].
  destruct He; reflexivity.
Qed.

(** X3. A [return None] of lines 76 and 98 changes one envelope and nothing
    else: either one envelope with a FRAG_NUM up to 1 is added at the end,
    or one envelope of the list gets the chunk at the end of its bytes and
    the next FRAG_NUM, in its place, with its GUID, MRN_SRC and total size;
    in both cases the envelope is not of its total size. *)
Theorem waiting_changes_one_envelope
    (m : gmap string json) (envs envs' : list envelope) :
  process m envs = (ReturnedNone Waiting, envs') ->
  (exists d, envs' = envs ++ [d] /\ FRAG_NUM (data d) <= 1 /\ incomplete d) \/
  (exists i d chunk,
     envs !! i = Some d /\
     envs' = <[i := {| GUID := GUID d;
                       data := {| FRAGMENT := FRAGMENT (data d) ++ chunk;
                                  MRN_SRC := MRN_SRC (data d);
                                  FRAG_NUM := FRAG_NUM (data d) + 1;
                                  tot_size := tot_size (data d) |} |}]> envs /\
     tot_size (data d) <> len (FRAGMENT (data d) ++ chunk)).
Proof.
  intros H.
  destruct (process_effect m envs _ envs' H) as [(_ & [=] & _) | (fd & c & _ & He & Ho)].
  destruct He; try discriminate.
  - left. eexists. split; [reflexivity |]. split; [assumption |].
    unfold incomplete. cbn. assumption.
  - right. exists i, d, chunk. split; [assumption |]. split; [| assumption].
    rewrite (alter_is_insert _ _ _ d) by assumption.
    unfold merged. subst frag_num. reflexivity.
Qed.

(** X4. What line 103 decompresses has exactly the declared length: it is
    either the chunk of an update numbered up to 1 that declares this length
    as TOT_SIZE, with the list unchanged, or the bytes of an envelope of the
    list followed by the chunk, of the total size recorded in the envelope,
    which is then deleted from the list. *)
Theorem completed_has_declared_length
    (m : gmap string json) (envs envs' : list envelope) (fragment : bytes) (d : decoded Doc) :
  process m envs = (Completed fragment d, envs') ->
  d = deliver fragment /\
  ((exists f, m !! "Fields" = Some (JObject f) /\ declares f (len fragment) /\ envs' = envs) \/
   (exists i e chunk,
      envs !! i = Some e /\
      fragment = FRAGMENT (data e) ++ chunk /\
      tot_size (data e) = len fragment /\
      envs' = delete i envs)).
Proof.
  intros H.
  destruct (process_effect m envs _ envs' H) as [(_ & [=] & _) | (fd & c & Hm & He & Ho)].
  destruct He; try discriminate; injection Ho as -> ->; (split; [reflexivity |]).
  - left. exists f. subst fd. auto.
  - right. exists i, d0, chunk. auto.
Qed.

(** X5. No envelope of the list is of its total size, after any number of
    calls, when none was before: an envelope that reaches its size is
    deleted by the call that brings it there. *)
Theorem envelopes_stay_incomplete
    (ms : list (gmap string json)) (envs : list envelope) :
  Forall incomplete envs ->
  Forall incomplete (snd (run_all ms envs)).
Proof.
  revert envs. induction ms as [| m ms IH]; intros envs Hall; [exact Hall |].
  cbn [run]. destruct (process m envs) as [o envs1] eqn:H.
  specialize (IH envs1). destruct (run_all ms envs1) as [os envs2]. cbn [snd] in *.
  apply IH.
  destruct (process_effect m envs o envs1 H) as [(_ & _ & ->) | (fd & c & _ & He & _)];
    [exact Hall |].
  destruct He; try exact Hall.
  - apply Forall_app. split; [exact Hall |].
    apply Forall_singleton. unfold incomplete. cbn. assumption.
  - apply Forall_alter; [exact Hall |].
    intros x Hx _. unfold incomplete, merged. cbn.
    replace x with d by congruence. assumption.
  - apply Forall_delete. exact Hall.
Qed.

End Effects.

(** ** One GUID at a time *)

Lemma guid_index_of_congr (g g' : value) (envs : list envelope) :
  py_eq g' g = true -> guid_index_of g' envs = guid_index_of g envs.
Proof.
  intros H. unfold guid_index_of. f_equal.
  apply list_find_ext. intros x. rewrite (py_eq_congr g' g _ H). reflexivity.
Qed.

Lemma entries_of_congr (g g' : value) (envs : list envelope) :
  py_eq g' g = true -> entries_of g' envs = entries_of g envs.
Proof.
  intros H. unfold entries_of.
  apply list_filter_iff. intros x. rewrite (py_eq_congr g' g _ H). reflexivity.
Qed.

Lemma entries_of_nil (g : value) (envs : list envelope) :
  guid_index_of g envs = None -> entries_of g envs = [].
Proof.
  intros H. apply guid_index_of_None in H. unfold entries_of.
  induction H as [| x l Hx _ IH]; [reflexivity |].
  rewrite filter_cons_False; [exact IH |]. rewrite Hx. cbn. tauto.
Qed.

(** The envelope that line 61 finds splits the list: no envelope before it
    is kept under the GUID. *)
Lemma guid_index_of_split (g : value) (envs : list envelope) i :
  guid_index_of g envs = Some i ->
  exists l1 d l2,
    envs = l1 ++ d :: l2 /\ length l1 = i /\
    py_eq (GUID d) g = true /\ guid_index_of g l1 = None.
Proof.
  unfold guid_index_of. intros H.
  destruct (list_find _ envs) as [[j d] |] eqn:E; [| discriminate].
  cbn in H. injection H as ->.
  apply list_find_Some in E as (Hd & Hp & Hless).
  exists (take i envs), d, (drop (S i) envs).
  split; [symmetry; apply take_drop_middle; exact Hd |].
  split; [apply length_take_le; apply lookup_lt_Some in Hd; lia |].
  split; [apply Is_true_true; exact Hp |].
  apply fmap_None, list_find_None, Forall_lookup.
  intros k x Hk. apply lookup_take_Some in Hk as [Hk Hlt].
  apply (Hless k x Hk Hlt).
Qed.

Lemma entries_of_split (g : value) (l1 l2 : list envelope) d :
  guid_index_of g l1 = None ->
  py_eq (GUID d) g = true ->
  entries_of g (l1 ++ d :: l2) = d :: entries_of g l2.
Proof.
  intros H1 Hd. unfold entries_of at 1. rewrite filter_app.
  fold (entries_of g l1). rewrite (entries_of_nil g l1 H1).
  rewrite filter_cons_True; [reflexivity |]. rewrite Hd. exact I.
Qed.

Lemma guid_index_of_head (g : value) d (l : list envelope) :
  py_eq (GUID d) g = true -> guid_index_of g (d :: l) = Some 0%nat.
Proof.
  intros Hd. unfold guid_index_of. cbn [list_find].
  rewrite decide_True; [reflexivity |]. rewrite Hd. exact I.
Qed.

(** An update that is not about [guid] leaves the envelopes under [guid]. *)
Lemma try_block_frame (g : value) (f : gmap string value) (envs : list envelope) :
  of_guid g f = false ->
  entries_of g (snd (try_block (JObject f) envs)) = entries_of g envs.
Proof.
  unfold of_guid. intros H.
  destruct (try_block_others (JObject f) envs) as [Hsome Hnone].
  cbn [subscript] in *.
  destruct (f !! "GUID") as [g' |].
  - specialize (Hsome g' eq_refl).
    assert (Hsub : forall l, entries_of g (others g' l) = entries_of g l).
    { intros l. unfold entries_of, others. apply list_filter_filter_l.
      intros x Hx Hx'. apply Is_true_true in Hx, Hx'.
      apply py_eq_key in Hx, Hx'.
      assert (py_eq g' g = true) by (apply py_eq_key; congruence).
      congruence. }
    rewrite <- Hsub, Hsome, Hsub. reflexivity.
  - rewrite (Hnone KeyError eq_refl). reflexivity.
Qed.

(** An update about [guid] does to the list what it does to the envelopes
    under [guid] alone. *)
Lemma try_block_projects (g : value) (f : gmap string value) (envs : list envelope) :
  of_guid g f = true ->
  fst (try_block (JObject f) envs) = fst (try_block (JObject f) (entries_of g envs)) /\
  entries_of g (snd (try_block (JObject f) envs))
    = snd (try_block (JObject f) (entries_of g envs)).
Proof.
  unfold of_guid. intros H. rewrite !try_block_reads.
  destruct (f !! "FRAGMENT") as [vf |]; [| split; reflexivity].
  destruct (b64decode vf) as [e | chunk]; [split; reflexivity |].
  destruct (f !! "FRAG_NUM") as [vn |]; [| split; reflexivity].
  destruct (int vn) as [e | frag_num]; [split; reflexivity |].
  destruct (f !! "GUID") as [guid |]; [| discriminate].
  destruct (f !! "MRN_SRC") as [mrn_src |]; [| split; reflexivity].
  unfold and_then. destruct (1 <? frag_num).
  - rewrite !later_fragment_eq, !(guid_index_of_congr g guid _ H).
    destruct (guid_index_of g envs) as [i |] eqn:Hi.
    + destruct (guid_index_of_split g envs i Hi) as (l1 & d & l2 & -> & <- & Hd & Hl1).
      rewrite (entries_of_split g l1 l2 d Hl1 Hd), (guid_index_of_head g d _ Hd).
      rewrite list_lookup_middle by reflexivity. cbn [lookup list_lookup].
      destruct (py_eq (MRN_SRC (data d)) mrn_src && (frag_num =? FRAG_NUM (data d) + 1)).
      * cbn zeta.
        replace (length l1) with (length l1 + 0)%nat by lia.
        rewrite alter_app_r. cbn [alter list_alter].
        replace (length l1 + 0)%nat with (length l1) by lia.
        rewrite delete_middle. cbn [delete list_delete].
        destruct (tot_size (data d) =? len (FRAGMENT (data d) ++ chunk)) eqn:E.
        -- rewrite E. cbn [fst snd pure]. split; [reflexivity |].
           unfold entries_of at 1. rewrite filter_app.
           fold (entries_of g l1). rewrite (entries_of_nil g l1 Hl1). reflexivity.
        -- cbn [fst snd]. split; [reflexivity |].
           apply entries_of_split; assumption.
      * cbn [fst snd]. split; [reflexivity |]. apply entries_of_split; assumption.
    + pose proof (entries_of_nil g envs Hi) as Hn. rewrite Hn. cbn.
      split; [reflexivity | exact Hn].
  - rewrite !first_fragment_eq.
    destruct (f !! "TOT_SIZE") as [vt |]; [| split; reflexivity].
    destruct (int vt) as [e | total]; [split; reflexivity |].
    destruct (total =? len chunk) eqn:E.
    + rewrite E. split; reflexivity.
    + cbn [fst snd]. split; [reflexivity |].
      unfold entries_of. rewrite filter_app, filter_cons_True; [reflexivity |].
      cbn. rewrite H. exact I.
Qed.

Lemma guid_index_of_alter (g : value) (h : envelope -> envelope) i (envs : list envelope) :
  (forall x, GUID (h x) = GUID x) ->
  guid_index_of g (alter h i envs) = guid_index_of g envs.
Proof.
  intros Hh. unfold guid_index_of.
  revert i. induction envs as [| x l IH]; intros [| i]; cbn [alter list_alter list_find];
    try reflexivity.
  - rewrite Hh. destruct (decide (py_eq (GUID x) g)); reflexivity.
  - destruct (decide (py_eq (GUID x) g)); [reflexivity |].
    specialize (IH i).
    destruct (list_find _ (alter h i l)) as [[j a] |], (list_find _ l) as [[k b] |];
      cbn in *; congruence.
Qed.

Section PerGuid.

Variable Doc : Type.
Variable zlib_decompress : bytes -> option bytes.
Variable json_loads : bytes -> option Doc.
Variable console_encodes : Doc -> bool.

Local Abbreviation process :=
  (process_mrn_update Doc zlib_decompress json_loads console_encodes).
Local Abbreviation deliver :=
  (delivered Doc zlib_decompress json_loads console_encodes).
Local Abbreviation run_all :=
  (run Doc zlib_decompress json_loads console_encodes).
Local Abbreviation unfold_update :=
  (process_update Doc zlib_decompress json_loads console_encodes).
Local Abbreviation unfold_run :=
  (run_cons Doc zlib_decompress json_loads console_encodes).

(** Only the object under ['Fields'] matters. *)
Lemma process_fields (m : gmap string json) (f : gmap string value) envs :
  m !! "Fields" = Some (JObject f) ->
  process m envs = process (update f) envs.
Proof.
  intros H. unfold process_mrn_update, update. rewrite H, lookup_singleton_eq. reflexivity.
Qed.

Lemma process_frame (g : value) (f : gmap string value) (envs : list envelope) :
  of_guid g f = false ->
  entries_of g (snd (process (update f) envs)) = entries_of g envs.
Proof.
  intros H. rewrite unfold_update.
  pose proof (try_block_frame g f envs H) as Hf.
  destruct (try_block (JObject f) envs) as [[[fragment |] | r | e] envs']; exact Hf.
Qed.

(** What an update does depends on the envelopes under its GUID only: from
    the whole list and from the list of those envelopes alone, the call ends
    alike, and the envelopes that it leaves under the GUID are the same. *)
Lemma process_projects
    (g : value) (f : gmap string value) (envs : list envelope) :
  of_guid g f = true ->
  fst (process (update f) envs) = fst (process (update f) (entries_of g envs)) /\
  entries_of g (snd (process (update f) envs))
    = snd (process (update f) (entries_of g envs)).
Proof.
  intros H. rewrite !unfold_update.
  destruct (try_block_projects g f envs H) as [H1 H2].
  destruct (try_block (JObject f) envs) as [c envs1].
  destruct (try_block (JObject f) (entries_of g envs)) as [c' envs2].
  cbn [fst snd] in H1, H2. subst c' envs2.
  destruct c as [[fragment |] | r | e]; split; reflexivity.
Qed.

(** The same for a run of updates: the outcomes of the updates about one
    GUID, and the envelopes left under it, are those of these updates alone,
    run from the envelopes under that GUID. *)
Lemma runs_project
    (g : value) (fs : list (gmap string value)) (envs : list envelope) :
  let own := filter (fun f => Is_true (of_guid g f)) fs in
  outcomes_of g fs (fst (run_all (map update fs) envs))
    = fst (run_all (map update own) (entries_of g envs)) /\
  entries_of g (snd (run_all (map update fs) envs))
    = snd (run_all (map update own) (entries_of g envs)).
Proof.
  cbn zeta. revert envs. induction fs as [| f fs IH]; intros envs; [split; reflexivity |].
  rewrite map_cons, unfold_run. cbn [fst snd]. unfold outcomes_of.
  cbn [zip zip_with]. rewrite !filter_cons. cbn [fst].
  destruct (IH (snd (process (update f) envs))) as [IH1 IH2].
  destruct (of_guid g f) eqn:Hg.
  - rewrite !decide_True by exact I.
    destruct (process_projects g f envs Hg) as [H1 H2].
    cbn [map]. rewrite unfold_run. cbn [fst snd fmap list_fmap].
    rewrite <- H1, <- H2. split; [f_equal; exact IH1 | exact IH2].
  - rewrite !decide_False by (intros []).
    rewrite (process_frame g f envs Hg) in IH1, IH2.
    split; [exact IH1 | exact IH2].
Qed.

(** X6. Updates about other GUIDs do not interfere: two runs of updates
    that have the same updates about a GUID, in the same order, between
    whatever other updates, and that start from lists with the same
    envelopes under this GUID, give these updates the same outcomes and
    leave the same envelopes under the GUID. *)
Theorem other_guids_do_not_interfere
    (g : value) (fs1 fs2 : list (gmap string value)) (envs1 envs2 : list envelope) :
  filter (fun f => Is_true (of_guid g f)) fs1 = filter (fun f => Is_true (of_guid g f)) fs2 ->
  entries_of g envs1 = entries_of g envs2 ->
  outcomes_of g fs1 (fst (run_all (map update fs1) envs1))
    = outcomes_of g fs2 (fst (run_all (map update fs2) envs2)) /\
  entries_of g (snd (run_all (map update fs1) envs1))
    = entries_of g (snd (run_all (map update fs2) envs2)).
Proof.
  intros Hfs Henvs.
  destruct (runs_project g fs1 envs1) as [-> ->].
  destruct (runs_project g fs2 envs2) as [-> ->].
  rewrite Hfs, Henvs. split; reflexivity.
Qed.

(** The envelope that line 61 finds under [guid], once overlong, stays. *)
Lemma stuck_step (g : value) (m : gmap string json) (envs : list envelope) :
  stuck g envs -> stuck g (snd (process m envs)).
Proof.
  intros Hst.
  destruct (m !! "Fields") as [[v | f] |] eqn:Hm.
  - unfold process_mrn_update. rewrite Hm. exact Hst.
  - rewrite (process_fields m f envs Hm).
    destruct (of_guid g f) eqn:Hg.
    + unfold stuck in *.
      destruct (process_projects g f envs Hg) as [_ ->].
      destruct (entries_of g envs) as [| d rest] eqn:He; [destruct Hst |].
      assert (Hd : py_eq (GUID d) g = true).
      { assert (Hin : d ∈ entries_of g envs) by (rewrite He; left).
        apply list_elem_of_filter in Hin as [Hin _]. apply Is_true_true. exact Hin. }
      rewrite unfold_update.
      pose proof (try_block_effect (JObject f) (d :: rest)) as Hef.
      destruct (try_block (JObject f) (d :: rest)) as [c envs1]. cbn [fst snd] in Hef.
      assert (Hgoal : match envs1 with d' :: _ => overlong d' | [] => False end).
      { inversion Hef; subst; try exact Hst.
        - match goal with Heq : JObject _ = JObject _ |- _ => injection Heq as <- end.
          match goal with Hc : carries _ _ _ _ _ |- _ => destruct Hc as (_ & _ & Hgf & _) end.
          unfold of_guid in Hg. rewrite Hgf in Hg.
          match goal with Hi : guid_index_of _ _ = Some _ |- _ =>
            rewrite (guid_index_of_congr g _ _ Hg), (guid_index_of_head g d rest Hd) in Hi;
            injection Hi as <- end.
          match goal with Hl : (d :: rest) !! 0%nat = Some _ |- _ =>
            cbn in Hl; injection Hl as <- end.
          cbn [alter list_alter]. unfold overlong, merged in *. cbn.
          rewrite len_app. pose proof (Nat2Z.is_nonneg (length chunk)). unfold len at 2. lia.
        - match goal with Heq : JObject _ = JObject _ |- _ => injection Heq as <- end.
          match goal with Hc : carries _ _ _ _ _ |- _ => destruct Hc as (_ & _ & Hgf & _) end.
          unfold of_guid in Hg. rewrite Hgf in Hg.
          match goal with Hi : guid_index_of _ _ = Some _ |- _ =>
            rewrite (guid_index_of_congr g _ _ Hg), (guid_index_of_head g d rest Hd) in Hi;
            injection Hi as <- end.
          match goal with Hl : (d :: rest) !! 0%nat = Some _ |- _ =>
            cbn in Hl; injection Hl as <- end.
          match goal with Hsz : tot_size _ = len (_ ++ _) |- _ =>
            rewrite len_app in Hsz; unfold overlong in Hst;
            pose proof (Nat2Z.is_nonneg (length chunk)); unfold len at 2 in Hsz; lia end. }
      destruct c as [[fragment |] | r | e]; exact Hgoal.
    + unfold stuck. rewrite (process_frame g f envs Hg). exact Hst.
  - unfold process_mrn_update. rewrite Hm. exact Hst.
Qed.

(** X8. An overlong envelope is never got rid of: once the envelope that
    line 61 finds under a GUID holds more bytes than its total size, it is
    still that envelope, and still overlong, after any further calls, and no
    update about that GUID numbered above 1 reaches line 103 any more. *)
Theorem overlong_envelope_blocks_its_guid
    (g : value) (envs : list envelope) :
  stuck g envs ->
  (forall ms, stuck g (snd (run_all ms envs))) /\
  (forall f, of_guid g f = true -> numbered_above_one f ->
     is_completed (fst (process (update f) envs)) = false).
Proof.
  intros Hst. split.
  - intros ms. revert envs Hst. induction ms as [| m ms IH]; intros envs Hst; [exact Hst |].
    rewrite unfold_run. cbn [snd]. apply IH, stuck_step, Hst.
  - intros f Hg (vn & n & Hn & Hi & Hlt).
    destruct (process_projects g f envs Hg) as [-> _].
    unfold stuck in Hst.
    destruct (entries_of g envs) as [| d rest] eqn:He; [destruct Hst |].
    assert (Hd : py_eq (GUID d) g = true).
    { assert (Hin : d ∈ entries_of g envs) by (rewrite He; left).
      apply list_elem_of_filter in Hin as [Hin _]. apply Is_true_true. exact Hin. }
    rewrite unfold_update.
    pose proof (try_block_effect (JObject f) (d :: rest)) as Hef.
    destruct (try_block (JObject f) (d :: rest)) as [c envs1]. cbn [fst snd] in Hef.
    inversion Hef; subst; try reflexivity.
    + match goal with Heq : JObject _ = JObject _ |- _ => injection Heq as <- end.
      match goal with Hc : carries _ _ _ _ _ |- _ =>
        destruct Hc as (_ & (vn' & Hn' & Hi') & _) end.
      rewrite Hn in Hn'. injection Hn' as <-. rewrite Hi in Hi'. injection Hi' as <-. lia.
    + match goal with Heq : JObject _ = JObject _ |- _ => injection Heq as <- end.
      match goal with Hc : carries _ _ _ _ _ |- _ => destruct Hc as (_ & _ & Hgf & _) end.
      unfold of_guid in Hg. rewrite Hgf in Hg.
      match goal with Hix : guid_index_of _ _ = Some _ |- _ =>
        rewrite (guid_index_of_congr g _ _ Hg), (guid_index_of_head g d rest Hd) in Hix;
        injection Hix as <- end.
      match goal with Hl : (d :: rest) !! 0%nat = Some _ |- _ =>
        cbn in Hl; injection Hl as <- end.
      match goal with Hsz : tot_size _ = len (_ ++ _) |- _ =>
        rewrite len_app in Hsz; unfold overlong in Hst;
        pose proof (Nat2Z.is_nonneg (length chunk)); unfold len at 2 in Hsz; lia end.
Qed.

(** X9. A fragment numbered above 1 is merged once: the update that line 76
    has answered finds, when it comes again, that it is no longer the next
    number, and changes nothing. *)
Theorem repeated_fragment_is_refused
    (f : gmap string value) guid mrn_src frag_num chunk (envs envs' : list envelope) :
  carries f guid mrn_src frag_num chunk ->
  1 < frag_num ->
  process (update f) envs = (ReturnedNone Waiting, envs') ->
  process (update f) envs' = (ReturnedNone CannotFind, envs').
Proof.
  intros Hc Hlt H.
  rewrite unfold_update, (try_block_later f guid mrn_src frag_num chunk envs Hc Hlt) in H.
  destruct (guid_index_of guid envs) as [i |] eqn:Hi; [| discriminate].
  destruct (envs !! i) as [d |] eqn:Hd; [| discriminate].
  destruct (py_eq (MRN_SRC (data d)) mrn_src) eqn:Hsrc; [| discriminate].
  destruct (Z.eqb_spec frag_num (FRAG_NUM (data d) + 1)) as [Hnum | _]; [| discriminate].
  cbn [andb] in H. cbn zeta in H.
  destruct (tot_size (data d) =? len (FRAGMENT (data d) ++ chunk)); [discriminate |].
  injection H as <-.
  rewrite unfold_update, (try_block_later f guid mrn_src frag_num chunk _ Hc Hlt).
  rewrite guid_index_of_alter by reflexivity.
  rewrite Hi, list_lookup_alter_eq, Hd. cbn [fmap option_fmap option_map merged data MRN_SRC FRAG_NUM].
  rewrite Hsrc.
  destruct (Z.eqb_spec frag_num (frag_num + 1)) as [Habs | _]; [lia |].
  reflexivity.
Qed.

(** X10. Lines 51-101 take five things from the fields: the decoded
    FRAGMENT, FRAG_NUM and TOT_SIZE as [int] reads them, GUID and MRN_SRC.
    Updates that agree on these (whatever other fields they carry, whether
    a number is sent as a number or as its digits) have the same outcome and
    leave the same list. *)
Theorem fields_matter_as_read
    (f1 f2 : gmap string value) (envs : list envelope) :
  reading f1 = reading f2 ->
  process (update f1) envs = process (update f2) envs.
Proof.
  unfold reading. intros [= Hf Hn Hg Hs Ht].
  rewrite !unfold_update.
  enough (E : try_block (JObject f1) envs = try_block (JObject f2) envs)
    by (rewrite E; reflexivity).
  rewrite !try_block_reads, <- Hg, <- Hs.
  destruct (f1 !! "FRAGMENT") as [v1 |], (f2 !! "FRAGMENT") as [v2 |];
    try discriminate; [| reflexivity].
  injection Hf as <-.
  destruct (b64decode v1) as [e | chunk]; [reflexivity |].
  destruct (f1 !! "FRAG_NUM") as [n1 |], (f2 !! "FRAG_NUM") as [n2 |];
    try discriminate; [| reflexivity].
  injection Hn as <-.
  destruct (int n1) as [e | frag_num]; [reflexivity |].
  destruct (f1 !! "GUID") as [guid |]; [| reflexivity].
  destruct (f1 !! "MRN_SRC") as [mrn_src |]; [| reflexivity].
  unfold and_then. destruct (1 <? frag_num); [reflexivity |].
  rewrite !first_fragment_eq.
  destruct (f1 !! "TOT_SIZE") as [t1 |], (f2 !! "TOT_SIZE") as [t2 |];
    try discriminate; [| reflexivity].
  injection Ht as <-. reflexivity.
Qed.

(** X11. FRAGMENT, FRAG_NUM, GUID and MRN_SRC are all required: an update
    without one of them ends in an [except] clause and leaves the list as it
    was, also when it carries a whole story in one fragment, for which
    MRN_SRC is never used. *)
Theorem update_without_a_field_is_dropped
    (f : gmap string value) (envs : list envelope) :
  f !! "FRAGMENT" = None \/ f !! "FRAG_NUM" = None \/
  f !! "GUID" = None \/ f !! "MRN_SRC" = None ->
  exists h, process (update f) envs = (Handled h, envs).
Proof.
  intros H. rewrite unfold_update, try_block_reads.
  destruct (f !! "FRAGMENT") as [vf |]; [| eexists; reflexivity].
  destruct (b64decode vf) as [e | chunk]; [eexists; reflexivity |].
  destruct (f !! "FRAG_NUM") as [vn |]; [| eexists; reflexivity].
  destruct (int vn) as [e | frag_num]; [eexists; reflexivity |].
  destruct (f !! "GUID") as [guid |]; [| eexists; reflexivity].
  destruct (f !! "MRN_SRC") as [mrn_src |]; [| eexists; reflexivity].
  destruct H as [H | [H | [H | H]]]; discriminate.
Qed.

(** X14. An update numbered 1 or below never looks at the list: its outcome
    is the same from every list, and what it leaves is the list it found,
    with the same envelope, or none, added at its end. *)
Theorem first_fragment_ignores_list (f : gmap string value) :
  numbered_up_to_one f ->
  exists o added, forall envs, process (update f) envs = (o, envs ++ added).
Proof.
  intros (vn & n & Hn & Hi & Hle).
  assert (E : forall envs, process (update f) envs =
                (fst (process (update f) []), envs ++ snd (process (update f) []))).
  { intros envs. rewrite !unfold_update, !try_block_reads, Hn, Hi.
    destruct (f !! "FRAGMENT") as [vf |]; [| cbn; rewrite app_nil_r; reflexivity].
    destruct (b64decode vf) as [e | chunk]; [cbn; rewrite app_nil_r; reflexivity |].
    destruct (f !! "GUID") as [guid |]; [| cbn; rewrite app_nil_r; reflexivity].
    destruct (f !! "MRN_SRC") as [mrn_src |]; [| cbn; rewrite app_nil_r; reflexivity].
    cbn beta iota delta [ok].
    destruct (Z.ltb_spec 1 n) as [Hlt | _]; [lia |].
    unfold and_then. rewrite !first_fragment_eq.
    destruct (f !! "TOT_SIZE") as [vt |]; [| cbn; rewrite app_nil_r; reflexivity].
    destruct (int vt) as [e | total]; [cbn; rewrite app_nil_r; reflexivity |].
    destruct (total =? len chunk) eqn:Et.
    - rewrite Et. cbn. rewrite app_nil_r. reflexivity.
    - reflexivity. }
  exists (fst (process (update f) [])), (snd (process (update f) [])). exact E.
Qed.

(** X16. A first fragment that is longer than the TOT_SIZE it declares (as
    is every fragment that declares a negative one) is kept as an envelope
    that is overlong from the start: without an older envelope under its
    GUID it is the one that line 61 finds from then on. *)
Theorem oversized_first_fragment_is_stuck
    (f : gmap string value) guid mrn_src frag_num chunk total (envs : list envelope) :
  carries f guid mrn_src frag_num chunk ->
  frag_num <= 1 ->
  declares f total ->
  total < len chunk ->
  guid_index_of guid envs = None ->
  fst (process (update f) envs) = ReturnedNone Waiting /\
  stuck guid (snd (process (update f) envs)).
Proof.
  intros Hc Hle Hd Hlt Hnone.
  rewrite unfold_update, (try_block_first f guid mrn_src frag_num chunk total) by auto.
  destruct (Z.eqb_spec total (len chunk)) as [Heq | _]; [lia |].
  cbn [fst snd]. split; [reflexivity |].
  unfold stuck, entries_of. rewrite filter_app.
  fold (entries_of guid envs). rewrite (entries_of_nil guid envs Hnone).
  rewrite filter_cons_True by (cbn; rewrite py_eq_refl; exact I).
  exact Hlt.
Qed.

End PerGuid.

(** ** The stream *)

Section Events.

Variable Doc : Type.
Variable zlib_decompress : bytes -> option bytes.
Variable json_loads : bytes -> option Doc.
Variable console_encodes : Doc -> bool.

Local Abbreviation process :=
  (process_mrn_update Doc zlib_decompress json_loads console_encodes).
Local Abbreviation deliver :=
  (delivered Doc zlib_decompress json_loads console_encodes).
Local Abbreviation run_all :=
  (run Doc zlib_decompress json_loads console_encodes).
Local Abbreviation display :=
  (display_event Doc zlib_decompress json_loads console_encodes).
Local Abbreviation stream_all :=
  (stream Doc zlib_decompress json_loads console_encodes).
Local Abbreviation unfold_update :=
  (process_update Doc zlib_decompress json_loads console_encodes).
Local Abbreviation unfold_run :=
  (run_cons Doc zlib_decompress json_loads console_encodes).

(** X12. Of the events of the stream only the updates count: refresh,
    status and error events are printed and leave [_news_envelopes] alone,
    whatever they carry, so that the outcomes and the list after a stream
    of events are those of its update events, in their order. *)
Theorem stream_is_its_updates
    (events : list (callback * gmap string json)) (envs : list envelope) :
  omap id (fst (stream_all events envs)) = fst (run_all (updates_of events) envs) /\
  snd (stream_all events envs) = snd (run_all (updates_of events) envs).
Proof.
  revert envs. induction events as [| [c event] events IH]; intros envs;
    [split; reflexivity |].
  unfold updates_of. rewrite filter_cons. cbn [fst stream].
  destruct c; cbn [is_update eventType_of];
    try (rewrite decide_False by (intros []);
         unfold display_event; cbn [String.eqb Ascii.eqb Bool.eqb andb];
         specialize (IH envs); destruct (stream_all events envs) as [os envs2];
         exact IH).
  rewrite decide_True by exact I.
  unfold display_event. cbn [String.eqb Ascii.eqb Bool.eqb andb].
  cbn [fmap list_fmap snd]. rewrite unfold_run.
  destruct (process event envs) as [o envs1]. cbn [fst snd].
  specialize (IH envs1). destruct (stream_all events envs1) as [os envs2].
  cbn [fst snd omap list_omap id] in *. destruct IH as [IH1 IH2].
  split; [f_equal; exact IH1 | exact IH2].
Qed.

(** X7. The fragments of an envelope are put together among the updates of
    other envelopes: when the updates about a GUID, picked out of any run
    that starts without an envelope under it, carry the chunks [c1 :: cs]
    as numbers 1, 2, ... with one MRN_SRC, the declared TOT_SIZE being the
    length of all chunks and more than that of any shorter run of them, the
    last of these updates hands the joined chunks to line 103, the ones
    before it return at line 76 or 98, and no envelope is left under the
    GUID. *)
Theorem interleaved_fragments_reassemble
    guid mrn_src total (fs : list (gmap string value))
    (f1 : gmap string value) (own : list (gmap string value))
    (c1 : bytes) (cs : list bytes) (envs : list envelope) :
  guid_index_of guid envs = None ->
  filter (fun f => Is_true (of_guid guid f)) fs = f1 :: own ->
  carries f1 guid mrn_src 1 c1 ->
  declares f1 total ->
  follow guid mrn_src 2 own cs ->
  (forall j, (0 < j < length (c1 :: cs))%nat -> len (concat (take j (c1 :: cs))) < total) ->
  len (concat (c1 :: cs)) = total ->
  outcomes_of guid fs (fst (run_all (map update fs) envs)) =
    replicate (length own) (ReturnedNone Waiting)
      ++ [Completed (concat (c1 :: cs)) (deliver (concat (c1 :: cs)))] /\
  entries_of guid (snd (run_all (map update fs) envs)) = [].
Proof.
  intros Hnone Hown Hc Hd Hfollow Hprefix Hsum.
  destruct (runs_project Doc zlib_decompress json_loads console_encodes
              guid fs envs) as [-> ->].
  rewrite Hown, (entries_of_nil guid envs Hnone).
  enough (E : run_all (map update (f1 :: own)) [] =
              (replicate (length own) (ReturnedNone Waiting)
                 ++ [Completed (concat (c1 :: cs)) (deliver (concat (c1 :: cs)))], []))
    by (rewrite E; split; reflexivity).
  rewrite map_cons, unfold_run, unfold_update.
  rewrite (try_block_first f1 guid mrn_src 1 c1 total) by (auto; lia).
  destruct own as [| f2 own].
  - destruct cs as [| c2 cs]; [| destruct Hfollow].
    cbn [concat] in *. rewrite app_nil_r in *.
    destruct (Z.eqb_spec total (len c1)) as [_ | Hneq]; [| lia].
    reflexivity.
  - destruct cs as [| c2 cs]; [destruct Hfollow |].
    assert (Hlt : len c1 < total).
    { specialize (Hprefix 1%nat). cbn in Hprefix. rewrite app_nil_r in Hprefix.
      apply Hprefix. lia. }
    destruct (Z.eqb_spec total (len c1)) as [Heq | _]; [lia |].
    cbn [fst snd].
    rewrite (later_updates_merge Doc zlib_decompress json_loads console_encodes
               guid mrn_src total [] eq_refl (f2 :: own) (c2 :: cs) 1 c1);
      try assumption; try lia; try discriminate.
    + cbn [fst snd length concat].
      replace (S (length own) - 1)%nat with (length own) by lia.
      reflexivity.
    + intros j Hj. specialize (Hprefix (S j)). cbn [take concat length] in Hprefix.
      rewrite len_app in Hprefix. cbn [length] in Hj. lia.
    + change (concat (c1 :: c2 :: cs)) with (c1 ++ concat (c2 :: cs)) in Hsum.
      rewrite len_app in Hsum. lia.
Qed.

End Events.

(** ** The clauses that can run *)

Lemma a2b_base64_raises (s : list ascii) quad_pos leftchar pads bin_data e :
  a2b_base64 s quad_pos leftchar pads bin_data = raise e -> e = binascii_Error.
Proof.
  revert quad_pos leftchar pads bin_data.
  induction s as [| c s IH]; intros quad_pos leftchar pads bin_data; cbn [a2b_base64].
  - destruct (quad_pos =? 0)%N; [discriminate | intros [= <-]; reflexivity].
  - destruct (code c =? BASE64_PAD)%N.
    + destruct ((2 <=? quad_pos) && (4 <=? quad_pos + (pads + 1)))%N; [discriminate |].
      apply IH.
    + destruct (table_a2b_base64 c) as [this_ch |]; [| apply IH].
      destruct quad_pos as [| [p | p |]]; try apply IH.
      destruct p; apply IH.
Qed.

Lemma b64decode_raises (v : value) e :
  b64decode v = raise e -> e = TypeError \/ e = ValueError \/ e = binascii_Error.
Proof.
  destruct v as [| b | z | s]; cbn [b64decode]; try (intros [= <-]; auto).
  destruct (forallb is_ascii (list_ascii_of_string s)).
  - intros H. apply a2b_base64_raises in H. auto.
  - intros [= <-]. auto.
Qed.

Lemma int_raises (v : value) e :
  int v = raise e -> e = TypeError \/ e = ValueError.
Proof.
  destruct v as [| b | z | s]; cbn [int]; try discriminate; try (intros [= <-]; auto).
  unfold int_of_str.
  repeat match goal with
         | |- context [match ?x with _ => _ end] => destruct x
         end;
    try discriminate; intros [= <-]; auto.
Qed.

(** What lines 51-101 raise. *)
Lemma try_block_raises (fields_data : json) (envs : list envelope) e :
  fst (try_block fields_data envs) = Raised e ->
  e = KeyError \/ e = TypeError \/ e = ValueError \/ e = binascii_Error.
Proof.
  destruct fields_data as [v | f]; [intros [= <-]; auto |].
  rewrite try_block_reads.
  destruct (f !! "FRAGMENT") as [vf |]; [| intros [= <-]; auto].
  destruct (b64decode vf) as [e1 | chunk] eqn:Hd.
  { intros [= <-]. apply b64decode_raises in Hd. tauto. }
  destruct (f !! "FRAG_NUM") as [vn |]; [| intros [= <-]; auto].
  destruct (int vn) as [e1 | frag_num] eqn:Hi.
  { intros [= <-]. apply int_raises in Hi. tauto. }
  destruct (f !! "GUID") as [guid |]; [| intros [= <-]; auto].
  destruct (f !! "MRN_SRC") as [mrn_src |]; [| intros [= <-]; auto].
  unfold and_then. destruct (1 <? frag_num).
  - rewrite later_fragment_eq.
    destruct (guid_index_of guid envs) as [i |] eqn:Hgi; [| intros [= <-]; auto].
    destruct (guid_index_of_Some _ _ _ Hgi) as (d & -> & _).
    destruct (py_eq (MRN_SRC (data d)) mrn_src && (frag_num =? FRAG_NUM (data d) + 1));
      [| discriminate].
    cbn zeta.
    destruct (tot_size (data d) =? len (FRAGMENT (data d) ++ chunk)) eqn:E;
      [rewrite E |]; discriminate.
  - rewrite first_fragment_eq.
    destruct (f !! "TOT_SIZE") as [vt |]; [| intros [= <-]; auto].
    destruct (int vt) as [e1 | total] eqn:Hti.
    { intros [= <-]. apply int_raises in Hti. tauto. }
    destruct (total =? len chunk) eqn:E; [rewrite E |]; discriminate.
Qed.

(** X15. The clause [except IndexError] of line 108 never runs: the only
    subscript of a list, on line 62, has either the index of an envelope
    that line 61 has just found, or [None], which is a [TypeError]. *)
Theorem index_clause_never_runs
    (Doc : Type) (zlib_decompress : bytes -> option bytes)
    (json_loads : bytes -> option Doc) (console_encodes : Doc -> bool)
    (m : gmap string json) (envs : list envelope) :
  index_clause_ran
    (fst (process_mrn_update Doc zlib_decompress json_loads console_encodes m envs)) = false.
Proof.
  unfold process_mrn_update.
  destruct (m !! "Fields") as [fields_data |]; [| reflexivity].
  pose proof (try_block_raises fields_data envs) as Hr.
  destruct (try_block fields_data envs) as [[[fragment |] | r | e] envs']; cbn [fst] in *;
    try reflexivity.
  - unfold index_clause_ran, delivered, decompress_and_print.
    destruct (zlib_decompress fragment) as [decompressed_data |]; [| reflexivity].
    destruct (json_loads decompressed_data) as [doc |]; [| reflexivity].
    destruct (console_encodes doc); reflexivity.
  - destruct (Hr e eq_refl) as [-> | [-> | [-> | ->]]]; reflexivity.
Qed.

(** ** More sample runs *)

(** A second fragment for an envelope of nine bytes that holds one. *)
Lemma waiting_changes_one_envelope_witness :
  let d := new_envelope (VStr "g1") (VStr "src") 1 9 (ascii_bytes "X") in
  (exists d0, [new_envelope (VStr "g1") (VStr "src") 2 9 (ascii_bytes "XCD")] = [d] ++ [d0] /\
              FRAG_NUM (data d0) <= 1 /\ incomplete d0) \/
  (exists i d0 chunk,
     [d] !! i = Some d0 /\
     [new_envelope (VStr "g1") (VStr "src") 2 9 (ascii_bytes "XCD")] =
       <[i := {| GUID := GUID d0;
                 data := {| FRAGMENT := FRAGMENT (data d0) ++ chunk;
                            MRN_SRC := MRN_SRC (data d0);
                            FRAG_NUM := FRAG_NUM (data d0) + 1;
                            tot_size := tot_size (data d0) |} |}]> [d] /\
     tot_size (data d0) <> len (FRAGMENT (data d0) ++ chunk)).
Proof.
  intros d.
  apply (waiting_changes_one_envelope sample_doc sample_zlib sample_json sample_console
           (update two_more) [d]).
  reflexivity.
Defined.

(** The story in one update. *)
Lemma completed_has_declared_length_witness :
  News EmptyObject = delivered sample_doc sample_zlib sample_json sample_console zlib_of_braces /\
  ((exists f, update whole_story !! "Fields" = Some (JObject f) /\
              declares f (len zlib_of_braces) /\ @nil envelope = []) \/
   (exists i e chunk,
      @nil envelope !! i = Some e /\
      zlib_of_braces = FRAGMENT (data e) ++ chunk /\
      tot_size (data e) = len zlib_of_braces /\
      @nil envelope = delete i [])).
Proof.
  apply (completed_has_declared_length sample_doc sample_zlib sample_json sample_console
           (update whole_story) [] []).
  reflexivity.
Defined.

(** An overlong envelope is not of its total size either. *)
Lemma envelopes_stay_incomplete_witness :
  Forall incomplete (snd (sample_run (map update [two_bytes; three_more]) [])).
Proof.
  apply (envelopes_stay_incomplete sample_doc sample_zlib sample_json sample_console).
  constructor.
Defined.

(** The fragments of "g1" with and without a first fragment of "g2" between
    them. *)
Lemma other_guids_do_not_interfere_witness :
  outcomes_of (VStr "g1") [story_part1; other_guid; story_part2]
      (fst (sample_run (map update [story_part1; other_guid; story_part2]) []))
    = outcomes_of (VStr "g1") [story_part1; story_part2]
        (fst (sample_run (map update [story_part1; story_part2]) [])) /\
  entries_of (VStr "g1")
      (snd (sample_run (map update [story_part1; other_guid; story_part2]) []))
    = entries_of (VStr "g1") (snd (sample_run (map update [story_part1; story_part2]) [])).
Proof.
  apply (other_guids_do_not_interfere sample_doc sample_zlib sample_json sample_console
           (VStr "g1") [story_part1; other_guid; story_part2] [story_part1; story_part2] [] []).
  - reflexivity.
  - reflexivity.
Defined.

(** The story in two updates, around a first fragment of "g2". *)
Lemma interleaved_fragments_reassemble_witness :
  outcomes_of (VStr "g1") [story_part1; other_guid; story_part2]
      (fst (sample_run (map update [story_part1; other_guid; story_part2]) []))
    = [ReturnedNone Waiting; Completed zlib_of_braces (News EmptyObject)] /\
  entries_of (VStr "g1")
      (snd (sample_run (map update [story_part1; other_guid; story_part2]) [])) = [].
Proof.
  apply (interleaved_fragments_reassemble sample_doc sample_zlib sample_json sample_console
           (VStr "g1") (VStr "src") 10 [story_part1; other_guid; story_part2]
           story_part1 [story_part2]
           (map byte_of_N [120; 156; 171; 174; 5; 0]%N)
           [map byte_of_N [1; 117; 0; 249]%N] []).
  - reflexivity.
  - reflexivity.
  - carried.
  - declared.
  - split; [carried | exact I].
  - intros j Hj. cbn [length] in Hj.
    assert (j = 1%nat) as -> by lia. reflexivity.
  - reflexivity.
Defined.

(** Five bytes in an envelope of four. *)
Lemma overlong_envelope_blocks_its_guid_witness :
  let envs := [new_envelope (VStr "g1") (VStr "src") 2 4 (ascii_bytes "ABCDE")] in
  (forall ms, stuck (VStr "g1") (snd (sample_run ms envs))) /\
  (forall f, of_guid (VStr "g1") f = true -> numbered_above_one f ->
     is_completed (fst (sample_update (update f) envs)) = false).
Proof.
  intros envs.
  apply (overlong_envelope_blocks_its_guid sample_doc sample_zlib sample_json sample_console
           (VStr "g1") envs).
  reflexivity.
Defined.

(** The second fragment, twice. *)
Lemma repeated_fragment_is_refused_witness :
  sample_update (update two_more)
      [new_envelope (VStr "g1") (VStr "src") 2 9 (ascii_bytes "XCD")]
  = (ReturnedNone CannotFind,
     [new_envelope (VStr "g1") (VStr "src") 2 9 (ascii_bytes "XCD")]).
Proof.
  apply (repeated_fragment_is_refused sample_doc sample_zlib sample_json sample_console
           two_more (VStr "g1") (VStr "src") 2 (ascii_bytes "CD")
           [new_envelope (VStr "g1") (VStr "src") 1 9 (ascii_bytes "X")]).
  - carried.
  - lia.
  - reflexivity.
Defined.

(** FRAG_NUM as digits between blanks, and a field more. *)
Lemma fields_matter_as_read_witness :
  sample_update (update two_more_as_text)
      [new_envelope (VStr "g1") (VStr "src") 1 4 (ascii_bytes "AB")]
  = sample_update (update two_more)
      [new_envelope (VStr "g1") (VStr "src") 1 4 (ascii_bytes "AB")].
Proof.
  apply (fields_matter_as_read sample_doc sample_zlib sample_json sample_console
           two_more_as_text two_more).
  reflexivity.
Defined.

(** A whole story without MRN_SRC. *)
Lemma update_without_a_field_is_dropped_witness :
  exists h, sample_update (update story_without_source) [] = (Handled h, []).
Proof.
  apply (update_without_a_field_is_dropped sample_doc sample_zlib sample_json sample_console
           story_without_source []).
  right. right. right. reflexivity.
Defined.

(** A first fragment of "g1", from the empty list and behind an envelope. *)
Lemma first_fragment_ignores_list_witness :
  exists o added, forall envs, sample_update (update two_bytes) envs = (o, envs ++ added).
Proof.
  apply (first_fragment_ignores_list sample_doc sample_zlib sample_json sample_console
           two_bytes).
  exists (VInt 1), 1. split; [reflexivity | split; [reflexivity | lia]].
Defined.

(** Three bytes where two are declared. *)
Lemma oversized_first_fragment_is_stuck_witness :
  fst (sample_update (update three_for_two) []) = ReturnedNone Waiting /\
  stuck (VStr "g1") (snd (sample_update (update three_for_two) [])).
Proof.
  apply (oversized_first_fragment_is_stuck sample_doc sample_zlib sample_json sample_console
           three_for_two (VStr "g1") (VStr "src") 1 (ascii_bytes "ABC") 2 []).
  - carried.
  - lia.
  - declared.
  - reflexivity.
  - reflexivity.
Defined.

(** ** The prints *)

Section Printing.

Variable Doc : Type.
Variable zlib_decompress : bytes -> option bytes.
Variable json_loads : bytes -> option Doc.
Variable console_encodes : Doc -> bool.
Variable encodable : string -> bool.

Local Abbreviation process :=
  (process_mrn_update Doc zlib_decompress json_loads console_encodes).
Local Abbreviation process_printing :=
  (process_mrn_update_printing Doc zlib_decompress json_loads console_encodes encodable).
Local Abbreviation display_printing :=
  (display_event_printing Doc zlib_decompress json_loads console_encodes encodable).
Local Abbreviation shows := (printable encodable).
Local Abbreviation later_printing := (later_fragment_printing encodable).
Local Abbreviation first_printing := (first_fragment_printing encodable).
Local Abbreviation try_printing := (try_block_printing encodable).

Lemma and_then_print {B} (shown : list value) (k : unit -> stmt B) envs :
  and_then (print encodable shown) k envs =
    if forallb shows shown then k tt envs else (Raised UnicodeEncodeError, envs).
Proof. unfold and_then, print. destruct (forallb shows shown); reflexivity. Qed.

Lemma later_fragment_printing_eq chunk frag_num guid mrn_src (envs : list envelope) :
  later_printing chunk frag_num guid mrn_src envs =
    match guid_index_of guid envs with
    | None => (Raised TypeError, envs)
    | Some i =>
        match envs !! i with
        | None => (Raised IndexError, envs)
        | Some d =>
            if py_eq (MRN_SRC (data d)) mrn_src && (frag_num =? FRAG_NUM (data d) + 1) then
              if shows (GUID d) then
                let fragment := FRAGMENT (data d) ++ chunk in
                if tot_size (data d) =? len fragment
                then (Normal (tot_size (data d), fragment),
                      delete i (alter (merged fragment frag_num) i envs))
                else (Returned Waiting, alter (merged fragment frag_num) i envs)
              else (Raised UnicodeEncodeError, envs)
            else
              if shows guid && shows mrn_src then (Returned CannotFind, envs)
              else (Raised UnicodeEncodeError, envs)
        end
    end.
Proof.
  unfold later_fragment_printing, and_then at 1 2. cbn.
  unfold list_getitem.
  destruct (guid_index_of guid envs) as [i |]; [| reflexivity].
  destruct (envs !! i) as [d |] eqn:Hd; [| reflexivity].
  cbn.
  destruct (py_eq (MRN_SRC (data d)) mrn_src && (frag_num =? FRAG_NUM (data d) + 1)).
  - rewrite and_then_print. cbn [forallb]. rewrite andb_true_r.
    destruct (shows (GUID d)); [| reflexivity].
    unfold and_then, merge_at, del_at, pure, return_None. cbn.
    destruct (tot_size (data d) =? len (FRAGMENT (data d) ++ chunk)) eqn:E; cbn.
    + rewrite length_alter. apply lookup_lt_Some in Hd.
      destruct (length envs) as [| m]; [lia |].
      replace (i <=? m)%nat with true by (symmetry; apply Nat.leb_le; lia).
      reflexivity.
    + reflexivity.
  - rewrite and_then_print. cbn [forallb]. rewrite andb_true_r.
    destruct (shows guid && shows mrn_src); reflexivity.
Qed.

Lemma first_fragment_printing_eq (f : gmap string value) chunk frag_num guid mrn_src
    (envs : list envelope) :
  first_printing (JObject f) chunk frag_num guid mrn_src envs =
    match f !! "TOT_SIZE" with
    | None => (Raised KeyError, envs)
    | Some tot_size_field =>
        match int tot_size_field with
        | inl e => (Raised e, envs)
        | inr total =>
            if total =? len chunk then (Normal (total, chunk), envs)
            else if shows guid
                 then (Returned Waiting,
                       envs ++ [new_envelope guid mrn_src frag_num total chunk])
                 else (Raised UnicodeEncodeError, envs)
        end
    end.
Proof.
  unfold first_fragment_printing. rewrite and_then_eval. unfold subscript.
  destruct (f !! "TOT_SIZE") as [vt |]; [| reflexivity]. cbn beta iota delta [ok raise].
  rewrite and_then_eval.
  destruct (int vt) as [e | total]; [reflexivity |].
  destruct (total =? len chunk); cbn [negb]; [reflexivity |].
  rewrite and_then_print. cbn [forallb]. rewrite andb_true_r.
  destruct (shows guid); reflexivity.
Qed.

Lemma try_block_printing_reads (f : gmap string value) envs :
  try_printing (JObject f) envs =
    match f !! "FRAGMENT" with
    | None => (Raised KeyError, envs)
    | Some fragment_field =>
        match b64decode fragment_field with
        | inl e => (Raised e, envs)
        | inr fragment =>
            match f !! "FRAG_NUM" with
            | None => (Raised KeyError, envs)
            | Some frag_num_field =>
                match int frag_num_field with
                | inl e => (Raised e, envs)
                | inr frag_num =>
                    match f !! "GUID" with
                    | None => (Raised KeyError, envs)
                    | Some guid =>
                        match f !! "MRN_SRC" with
                        | None => (Raised KeyError, envs)
                        | Some mrn_src =>
                            and_then
                              (if 1 <? frag_num
                               then later_printing fragment frag_num guid mrn_src
                               else first_printing (JObject f) fragment frag_num guid mrn_src)
                              (fun '(tot_size, fragment) =>
                                 if tot_size =? len fragment
                                 then and_then (print encodable [guid])
                                        (fun _ => pure (Some fragment))
                                 else pure None)
                              envs
                        end
                    end
                end
            end
        end
    end.
Proof.
  unfold try_block_printing.
  rewrite and_then_eval. unfold subscript at 1.
  destruct (f !! "FRAGMENT") as [vf |]; [| reflexivity]. cbn beta iota delta [ok raise].
  rewrite and_then_eval. destruct (b64decode vf) as [e | fragment]; [reflexivity |].
  rewrite and_then_eval. unfold subscript at 1.
  destruct (f !! "FRAG_NUM") as [vn |]; [| reflexivity]. cbn beta iota delta [ok raise].
  rewrite and_then_eval. destruct (int vn) as [e | frag_num]; [reflexivity |].
  rewrite and_then_eval. unfold subscript at 1.
  destruct (f !! "GUID") as [guid |]; [| reflexivity]. cbn beta iota delta [ok raise].
  rewrite and_then_eval. unfold subscript at 1.
  destruct (f !! "MRN_SRC") as [mrn_src |]; [| reflexivity]. cbn beta iota delta [ok raise].
  reflexivity.
Qed.

(** The variable [guid] holds a string only once line 53 has read it. *)
Lemma guid_variable_str (fields_data : json) (s : string) :
  guid_variable fields_data = VStr s ->
  subscript fields_data "GUID" = ok (VStr s).
Proof.
  unfold guid_variable.
  destruct (subscript fields_data "FRAGMENT") as [e | vf]; [discriminate |].
  destruct (b64decode vf); [discriminate |].
  destruct (subscript fields_data "FRAG_NUM") as [e | vn]; [discriminate |].
  destruct (int vn); [discriminate |].
  destruct (subscript fields_data "GUID") as [e | guid]; [discriminate |].
  intros ->. reflexivity.
Qed.

Lemma guid_variable_reads (f : gmap string value) vf chunk vn frag_num guid :
  f !! "FRAGMENT" = Some vf -> b64decode vf = ok chunk ->
  f !! "FRAG_NUM" = Some vn -> int vn = ok frag_num ->
  f !! "GUID" = Some guid ->
  guid_variable (JObject f) = guid.
Proof.
  intros Hf Hd Hn Hi Hg. unfold guid_variable, subscript.
  rewrite Hf. cbn beta iota delta [ok]. rewrite Hd. cbn beta iota delta [ok].
  rewrite Hn. cbn beta iota delta [ok]. rewrite Hi. cbn beta iota delta [ok].
  rewrite Hg. reflexivity.
Qed.

Lemma unshown_is_str (v : value) :
  shows v = false -> exists s, v = VStr s /\ encodable s = false.
Proof. destruct v as [| b | z | s]; try discriminate. intros H. exists s. auto. Qed.

(** Beside what [try_block] does, the prints can only raise: before the
    list is touched (lines 64, 81, 88, and 102 for a first fragment), or at
    line 102 on the GUID of the update, after the last fragment is merged
    and its envelope deleted. *)
Lemma try_block_printing_cases (fields_data : json) (envs : list envelope) :
  try_printing fields_data envs = try_block fields_data envs \/
  ((exists s, encodable s = false) /\
   try_printing fields_data envs = (Raised UnicodeEncodeError, envs)) \/
  (shows (guid_variable fields_data) = false /\
   (exists fragment, fst (try_block fields_data envs) = Normal (Some fragment)) /\
   try_printing fields_data envs
     = (Raised UnicodeEncodeError, snd (try_block fields_data envs))).
Proof.
  assert (Hno : forall v, shows v = false -> exists s, encodable s = false).
  { intros v H. destruct (unshown_is_str v H) as (s & _ & Hs). eauto. }
  destruct fields_data as [v | f]; [left; reflexivity |].
  rewrite try_block_printing_reads, try_block_reads.
  destruct (f !! "FRAGMENT") as [vf |] eqn:Hf; [| left; reflexivity].
  destruct (b64decode vf) as [e | chunk] eqn:Hdec; [left; reflexivity |].
  destruct (f !! "FRAG_NUM") as [vn |] eqn:Hn; [| left; reflexivity].
  destruct (int vn) as [e | frag_num] eqn:Hi; [left; reflexivity |].
  destruct (f !! "GUID") as [guid |] eqn:Hgu; [| left; reflexivity].
  destruct (f !! "MRN_SRC") as [mrn_src |]; [| left; reflexivity].
  rewrite (guid_variable_reads f vf chunk vn frag_num guid Hf Hdec Hn Hi Hgu).
  unfold and_then. destruct (1 <? frag_num).
  - rewrite later_fragment_printing_eq, later_fragment_eq.
    destruct (guid_index_of guid envs) as [i |] eqn:Hgi; [| left; reflexivity].
    destruct (guid_index_of_Some _ _ _ Hgi) as (d & Hd & Hg). rewrite Hd.
    destruct (py_eq (MRN_SRC (data d)) mrn_src && (frag_num =? FRAG_NUM (data d) + 1)).
    + destruct (shows (GUID d)) eqn:Hp; [| right; left; split; [eauto | reflexivity]].
      cbn zeta.
      destruct (tot_size (data d) =? len (FRAGMENT (data d) ++ chunk)) eqn:E;
        [| left; reflexivity].
      rewrite E. unfold print. cbn [forallb]. rewrite andb_true_r.
      destruct (shows guid) eqn:Hp'; [left; reflexivity |].
      right. right. split; [reflexivity | split; [eexists |]; reflexivity].
    + destruct (shows guid) eqn:Hp; cbn [andb];
        [| right; left; split; [eauto | reflexivity]].
      destruct (shows mrn_src) eqn:Hp'; [left; reflexivity |].
      right. left. split; [eauto | reflexivity].
  - rewrite first_fragment_printing_eq, first_fragment_eq.
    destruct (f !! "TOT_SIZE") as [vt |]; [| left; reflexivity].
    destruct (int vt) as [e | total]; [left; reflexivity |].
    destruct (total =? len chunk) eqn:E.
    + rewrite E. unfold print. cbn [forallb]. rewrite andb_true_r.
      destruct (shows guid) eqn:Hp; [left; reflexivity |].
      right. left. split; [eauto | reflexivity].
    + destruct (shows guid) eqn:Hp; [left; reflexivity |].
      right. left. split; [eauto | reflexivity].
Qed.

Lemma caught_cases (e : exn) (guid : value) (o : outcome Doc) :
  (shows guid = true \/ except e <> except_UnicodeEncodeError) /\
    caught Doc encodable e guid o = o \/
  shows guid = false /\ except e = except_UnicodeEncodeError /\
    caught Doc encodable e guid o = Propagated UnicodeEncodeError.
Proof.
  unfold caught, clause_raises.
  destruct (except e); try (left; split; [right; discriminate | reflexivity]).
  destruct (shows guid); [left | right]; auto.
Qed.

(** On a console that encodes every string, as that of line 28 does for the
    strings of this model, the prints change nothing. *)
Lemma printing_changes_nothing (m : gmap string json) (envs : list envelope) :
  (forall s, encodable s = true) ->
  process_printing m envs = process m envs.
Proof.
  intros Hall. unfold process_mrn_update_printing, process_mrn_update.
  destruct (m !! "Fields") as [fields_data |]; [| reflexivity].
  assert (Hs : forall v, shows v = true).
  { intros [| b | z | s]; cbn; auto. }
  assert (Hc : forall e g (o : outcome Doc), caught Doc encodable e g o = o).
  { intros e g o. destruct (caught_cases e g o) as [[_ H] | (H & _)]; [exact H |].
    rewrite Hs in H. discriminate. }
  destruct (try_block_printing_cases fields_data envs)
    as [-> | [[(s & H) _] | (H & _)]].
  - destruct (try_block fields_data envs) as [[[fragment |] | r | e] envs'];
      rewrite ?Hc; try reflexivity.
    unfold delivered.
    destruct (decompress_and_print _ _ _ _ fragment); rewrite ?Hc; reflexivity.
  - rewrite Hall in H. discriminate.
  - rewrite Hs in H. discriminate.
Qed.

(** What a call with ['Fields'] did to the list, by its outcome: [c] is how
    lines 51-101 ended. *)
Lemma process_printing_effect (m : gmap string json) (fields_data : json)
    (envs envs' : list envelope) (o : outcome Doc) :
  m !! "Fields" = Some fields_data ->
  process_printing m envs = (o, envs') ->
  exists c, effect fields_data envs c envs' /\
    match o with
    | Handled _ => exists e, c = Raised e
    | ReturnedNone r => c = Returned r
    | Skipped => c = Normal None
    | Completed fragment _ => c = Normal (Some fragment)
    | Propagated e =>
        e = UnicodeEncodeError /\ shows (guid_variable fields_data) = false /\
        ((exists e', c = Raised e') \/ exists fragment, c = Normal (Some fragment))
    end.
Proof.
  intros Hf. unfold process_mrn_update_printing. rewrite Hf. cbn zeta.
  pose proof (try_block_effect fields_data envs) as He.
  destruct (try_block_printing_cases fields_data envs)
    as [-> | [[_ ->] | (Hg & (fragment & Hfr) & ->)]].
  - destruct (try_block fields_data envs) as [[[fragment |] | r | e] envs1];
      cbn [fst snd] in He.
    + destruct (decompress_and_print _ _ _ _ fragment) as [e | doc].
      * destruct (caught_cases e (guid_variable fields_data)
                    (Completed fragment (Failed (except e)))) as [[_ ->] | (Hg & _ & ->)];
          intros [= <- <-]; exists (Normal (Some fragment)); (split; [exact He |]);
          eauto 6.
      * intros [= <- <-]. exists (Normal (Some fragment)). split; [exact He | reflexivity].
    + intros [= <- <-]. exists (Normal None). split; [exact He | reflexivity].
    + intros [= <- <-]. exists (Returned r). split; [exact He | reflexivity].
    + destruct (caught_cases e (guid_variable fields_data) (Handled (except e)))
        as [[_ ->] | (Hg & _ & ->)];
        intros [= <- <-]; exists (Raised e); (split; [exact He |]); eauto 6.
  - destruct (caught_cases UnicodeEncodeError (guid_variable fields_data)
                (Handled (except UnicodeEncodeError))) as [[_ ->] | (Hg & _ & ->)];
      intros [= <- <-]; exists (Raised UnicodeEncodeError);
      (split; [apply effect_raised |]); eauto 6.
  - destruct (caught_cases UnicodeEncodeError (guid_variable fields_data)
                (Handled (except UnicodeEncodeError))) as [[[H | H] _] | (_ & _ & ->)].
    + rewrite Hg in H. discriminate.
    + contradiction H. reflexivity.
    + intros [= <- <-]. destruct (try_block fields_data envs) as [c envs1].
      cbn [fst snd] in *. subst c.
      exists (Normal (Some fragment)). split; [exact He |]. eauto 6.
Qed.

Lemma process_update_printing (f : gmap string value) envs :
  process_printing (update f) envs =
    match try_printing (JObject f) envs with
    | (Raised e, envs') =>
        (caught Doc encodable e (guid_variable (JObject f)) (Handled (except e)), envs')
    | (Returned r, envs') => (ReturnedNone r, envs')
    | (Normal None, envs') => (Skipped, envs')
    | (Normal (Some fragment), envs') =>
        (match decompress_and_print Doc zlib_decompress json_loads console_encodes
                 fragment with
         | inl e => caught Doc encodable e (guid_variable (JObject f))
                      (Completed fragment (Failed (except e)))
         | inr doc => Completed fragment (News doc)
         end,
         envs')
    end.
Proof.
  unfold process_mrn_update_printing, update. rewrite lookup_singleton_eq. reflexivity.
Qed.

(** A first fragment under a GUID that the console does not encode: line 88
    or line 102 raises, the clause of line 115 runs, and line 116 raises. *)
Lemma unshown_first_fragment
    (f : gmap string value) (s : string) mrn_src frag_num chunk total envs :
  carries f (VStr s) mrn_src frag_num chunk ->
  frag_num <= 1 ->
  declares f total ->
  encodable s = false ->
  process_printing (update f) envs = (Propagated UnicodeEncodeError, envs).
Proof.
  intros ((vf & Hf & Hd) & (vn & Hn & Hi) & Hg & Hs) Hle (vt & Ht & Hti) He.
  rewrite process_update_printing.
  rewrite (guid_variable_reads f vf chunk vn frag_num (VStr s) Hf Hd Hn Hi Hg).
  rewrite try_block_printing_reads, Hf, Hd, Hn, Hi, Hg, Hs. cbn beta iota delta [ok].
  destruct (Z.ltb_spec 1 frag_num) as [Hlt | _]; [lia |].
  unfold and_then. rewrite first_fragment_printing_eq, Ht, Hti. cbn beta iota delta [ok].
  assert (Hc : forall o, caught Doc encodable UnicodeEncodeError (VStr s) o
                         = Propagated UnicodeEncodeError).
  { intros o. unfold caught, clause_raises. cbn. rewrite He. reflexivity. }
  destruct (total =? len chunk) eqn:E.
  - rewrite E. unfold print. cbn. rewrite He. cbn. rewrite Hc. reflexivity.
  - cbn. rewrite He. rewrite Hc. reflexivity.
Qed.

(** C6, as the code has it. When [base64.b64decode] raises on the FRAGMENT
    field, [_news_envelopes] is left as it was, and the clause that handles
    the update goes by the value: the clause of line 110, for
    [binascii.Error], when FRAGMENT is a [str] of ASCII characters; the last
    clause, [except Exception], when it is a [str] with a character beyond
    ASCII ([ValueError]) or no [str] at all ([TypeError]). *)
Theorem undecodable_fragment_leaves_envelopes
    (f : gmap string value) (v : value) (e : exn) (envs : list envelope) :
  f !! "FRAGMENT" = Some v ->
  b64decode v = raise e ->
  process_printing (update f) envs
    = (Handled (if ascii_text v then except_binascii_Error else except_Exception), envs).
Proof.
  intros Hf Hd.
  rewrite process_update_printing, try_block_printing_reads, Hf, Hd.
  assert (He : except e = if ascii_text v then except_binascii_Error else except_Exception).
  { destruct v as [| b | z | s]; cbn [b64decode ascii_text] in *;
      try (injection Hd as <-; reflexivity).
    destruct (forallb is_ascii (list_ascii_of_string s)).
    - apply a2b_base64_raises in Hd. subst e. reflexivity.
    - injection Hd as <-. reflexivity. }
  cbn beta iota delta [raise]. unfold caught, clause_raises. rewrite He.
  destruct (ascii_text v); reflexivity.
Qed.

(** C7, as the code has it. An exception leaves the call in two ways.  A
    message without ['Fields'] raises [KeyError] at line 43, before the
    [try].  With ['Fields'], whatever is under it, the call raises only
    [UnicodeEncodeError], out of line 116, and only when the GUID of the
    update is a [str] that the console does not encode; a first fragment
    under such a GUID does raise it.  In every case the envelopes kept under
    other GUIDs than the one of the update are left as they were, and so is
    the whole list when the update has no GUID. *)
Theorem exceptions_out_of_the_callback (m : gmap string json) (envs : list envelope) :
  (m !! "Fields" = None -> process_printing m envs = (Propagated KeyError, envs)) /\
  (forall fields_data, m !! "Fields" = Some fields_data ->
     let r := process_printing m envs in
     (propagates (fst r) = true ->
        fst r = Propagated UnicodeEncodeError /\
        exists s, subscript fields_data "GUID" = ok (VStr s) /\ encodable s = false) /\
     others_than (subscript fields_data "GUID") (snd r)
       = others_than (subscript fields_data "GUID") envs) /\
  (forall f s mrn_src frag_num chunk total,
     m = update f ->
     carries f (VStr s) mrn_src frag_num chunk ->
     frag_num <= 1 ->
     declares f total ->
     encodable s = false ->
     process_printing m envs = (Propagated UnicodeEncodeError, envs)).
Proof.
  split; [| split].
  - intros H. unfold process_mrn_update_printing. rewrite H. reflexivity.
  - intros fields_data Hf. cbn zeta.
    destruct (process_printing m envs) as [o envs'] eqn:H. cbn [fst snd].
    destruct (process_printing_effect m fields_data envs envs' o Hf H) as (c & He & Ho).
    split.
    + intros Hp. destruct o as [r | fragment d | | h | e]; try discriminate.
      destruct Ho as (-> & Hg & _). split; [reflexivity |].
      destruct (unshown_is_str _ Hg) as (s & Hs & Hn).
      exists s. split; [apply guid_variable_str; exact Hs | exact Hn].
    + assert (Hsnd : envs' = snd (try_block fields_data envs) \/ envs' = envs).
      { revert H. unfold process_mrn_update_printing. rewrite Hf. cbn zeta.
        destruct (try_block_printing_cases fields_data envs)
          as [-> | [[_ ->] | (_ & _ & ->)]].
        - destruct (try_block fields_data envs) as [[[fragment |] | r | e] envs1];
            intros [= _ <-]; left; reflexivity.
        - intros [= _ <-]. right. reflexivity.
        - intros [= _ <-]. left. reflexivity. }
      destruct Hsnd as [-> | ->]; [| reflexivity].
      pose proof (try_block_others fields_data envs) as [Hsome Hnone].
      destruct (subscript fields_data "GUID") as [e' | guid]; cbn [others_than];
        [apply (Hnone e'); reflexivity | apply (Hsome guid); reflexivity].
  - intros f s mrn_src frag_num chunk total -> Hc Hle Hd He.
    apply (unshown_first_fragment f s mrn_src frag_num chunk total); assumption.
Qed.

(** X1. What a call has done to [_news_envelopes], by the way it ends.  A
    call that raises out of line 43, that returns at line 82, or that ends
    in an [except] clause for an exception of lines 51-101 leaves the list
    exactly as it found it.  A call that reached line 103, and one that a
    [print] makes raise, leave the list as lines 51-101 left it, whether
    lines 103-104 raise or not: as it was, or without one envelope, the one
    deleted at line 79, which no clause puts back. *)
Theorem quiet_outcome_keeps_list
    (m : gmap string json) (envs envs' : list envelope) (o : outcome Doc) :
  process_printing m envs = (o, envs') ->
  (may_change o = false -> raised_by_print o = false -> envs' = envs) /\
  (is_completed o = true \/ raised_by_print o = true ->
     envs' = envs \/ exists i d, envs !! i = Some d /\ envs' = delete i envs).
Proof.
  intros H.
  destruct (m !! "Fields") as [fields_data |] eqn:Hf.
  - destruct (process_printing_effect m fields_data envs envs' o Hf H) as (c & He & Ho).
    assert (Hlast : forall fragment, c = Normal (Some fragment) ->
              envs' = envs \/ exists i d, envs !! i = Some d /\ envs' = delete i envs).
    { intros fragment ->. inversion He; subst; eauto. }
    assert (Hraised : forall e, c = Raised e -> envs' = envs).
    { intros e ->. inversion He; subst; reflexivity. }
    split.
    + intros Hm Hr. destruct o as [[|] | fragment d | | h | e]; try discriminate.
      * subst c. inversion He; subst; reflexivity.
      * subst c. inversion He.
      * destruct Ho as (e & ->). apply (Hraised e). reflexivity.
      * destruct Ho as (-> & _). discriminate.
    + intros [Hc | Hr]; destruct o as [r | fragment d | | h | e]; try discriminate.
      * apply (Hlast fragment Ho).
      * destruct Ho as (_ & _ & [(e' & Hc) | (fragment & Hc)]).
        -- left. apply (Hraised e' Hc).
        -- apply (Hlast fragment Hc).
  - revert H. unfold process_mrn_update_printing. rewrite Hf. intros [= <- <-].
    split; [reflexivity |]. intros [Hc | Hr]; discriminate.
Qed.

(** X13. When [display_event] raises.  It raises only when line 35 cannot
    show the type of the event, or for an update event that has no
    ['Fields'] or whose GUID is a [str] that the console does not encode.
    An update event without ['Fields'] does raise, [KeyError] at line 43,
    and an event of another type never reaches [process_mrn_update].  On a
    console that encodes every string, an event makes it raise exactly when
    it is an update without ['Fields']. *)
Theorem display_event_raises
    (eventType : string) (event : gmap string json) (envs : list envelope) :
  let r := display_printing eventType event envs in
  ((exists o, fst r = Some o /\ propagates o = true) ->
     encodable eventType = false \/
     (eventType = "Update" /\
      (event !! "Fields" = None \/
       exists fields_data s,
         event !! "Fields" = Some fields_data /\
         subscript fields_data "GUID" = ok (VStr s) /\ encodable s = false))) /\
  (encodable eventType = true -> eventType = "Update" -> event !! "Fields" = None ->
     r = (Some (Propagated KeyError), envs)) /\
  (encodable eventType = true -> String.eqb eventType "Update" = false ->
     r = (None, envs)) /\
  ((forall s, encodable s = true) ->
     ((exists o, fst r = Some o /\ propagates o = true) <->
      eventType = "Update" /\ event !! "Fields" = None)).
Proof.
  cbn zeta.
  assert (Hraise :
    encodable eventType = true ->
    (exists o, fst (display_printing eventType event envs) = Some o /\ propagates o = true) ->
    eventType = "Update" /\
    (event !! "Fields" = None \/
     exists fields_data s,
       event !! "Fields" = Some fields_data /\
       subscript fields_data "GUID" = ok (VStr s) /\ encodable s = false)).
  { intros He (o & Ho & Hp). revert Ho. unfold display_event_printing. rewrite He.
    destruct (String.eqb_spec eventType "Update") as [-> | _]; [| discriminate].
    split; [reflexivity |].
    destruct (event !! "Fields") as [fields_data |] eqn:Hf; [right | left; reflexivity].
    destruct (process_printing event envs) as [o' envs'] eqn:H. cbn [fst] in Ho.
    injection Ho as ->.
    destruct (process_printing_effect event fields_data envs envs' o Hf H) as (c & _ & Hc).
    destruct o as [r | fragment d | | h | e]; try discriminate.
    destruct Hc as (_ & Hg & _).
    destruct (unshown_is_str _ Hg) as (s & Hs & Hn).
    exists fields_data, s. split; [reflexivity |].
    split; [apply guid_variable_str; exact Hs | exact Hn]. }
  assert (Hnone :
    encodable eventType = true -> eventType = "Update" -> event !! "Fields" = None ->
    display_printing eventType event envs = (Some (Propagated KeyError), envs)).
  { intros He -> Hf. unfold display_event_printing, process_mrn_update_printing.
    rewrite He, Hf. reflexivity. }
  split; [| split; [| split]].
  - intros H. destruct (encodable eventType) eqn:He; [right | left; reflexivity].
    apply Hraise; [reflexivity | exact H].
  - exact Hnone.
  - intros He Hne. unfold display_event_printing. rewrite He, Hne. reflexivity.
  - intros Hall. split.
    + intros H. destruct (Hraise (Hall eventType) H)
        as (Hu & [Hf | (fields_data & s & _ & _ & Hs)]); [auto |].
      rewrite Hall in Hs. discriminate.
    + intros (Hu & Hf). rewrite (Hnone (Hall eventType) Hu Hf).
      exists (Propagated KeyError). split; reflexivity.
Qed.

End Printing.

(** ** Sample runs with the prints *)

(** Bad padding, and a character beyond ASCII, beside an unfinished
    envelope. *)
Lemma undecodable_fragment_leaves_envelopes_witness :
  sample_update_printing (update bad_padding)
      [new_envelope (VStr "g1") (VStr "src") 1 9 (ascii_bytes "X")] =
    (Handled except_binascii_Error,
     [new_envelope (VStr "g1") (VStr "src") 1 9 (ascii_bytes "X")]) /\
  sample_update_printing (update not_ascii)
      [new_envelope (VStr "g1") (VStr "src") 1 9 (ascii_bytes "X")] =
    (Handled except_Exception,
     [new_envelope (VStr "g1") (VStr "src") 1 9 (ascii_bytes "X")]).
Proof.
  split.
  - apply (undecodable_fragment_leaves_envelopes
             sample_doc sample_zlib sample_json sample_console utf_8
             bad_padding (VStr "QUJ") binascii_Error).
    + reflexivity.
    + reflexivity.
  - apply (undecodable_fragment_leaves_envelopes
             sample_doc sample_zlib sample_json sample_console utf_8
             not_ascii (VStr (String "233"%char "")) ValueError).
    + reflexivity.
    + reflexivity.
Defined.

(** C6 fails on a FRAGMENT with a character beyond ASCII: [b64decode]
    raises [ValueError] on it, not [binascii.Error], and the clause that
    handles the update is [except Exception], not the clause of line 110. *)
Lemma non_ascii_fragment_in_catch_all :
  not_ascii !! "FRAGMENT" = Some (VStr (String "233"%char "")) /\
  b64decode (VStr (String "233"%char "")) = raise ValueError /\
  sample_update_printing (update not_ascii) [] = (Handled except_Exception, []) /\
  sample_update_printing (update not_ascii) [] <> (Handled except_binascii_Error, []).
Proof. repeat split; try reflexivity. discriminate. Qed.

(** An update message with nothing in it. *)
Lemma exceptions_out_of_the_callback_witness :
  sample_update_printing ∅ [new_envelope (VStr "g1") (VStr "src") 1 9 (ascii_bytes "X")] =
    (Propagated KeyError, [new_envelope (VStr "g1") (VStr "src") 1 9 (ascii_bytes "X")]).
Proof.
  apply (proj1 (exceptions_out_of_the_callback
                  sample_doc sample_zlib sample_json sample_console utf_8 ∅
                  [new_envelope (VStr "g1") (VStr "src") 1 9 (ascii_bytes "X")])).
  reflexivity.
Defined.

(** A first fragment under a GUID with a lone surrogate: the exception of
    line 88 is caught at line 115 and line 116 raises it again. *)
Lemma lone_surrogate_leaves_the_callback :
  process_mrn_update_printing sample_doc sample_zlib sample_json sample_console strict_utf_8
      (update surrogate_guid) [] =
    (Propagated UnicodeEncodeError, []).
Proof. reflexivity. Qed.

(** Bad padding beside an unfinished envelope; and the last fragment of an
    envelope that is no stream: [except zlib.error] runs with the envelope
    gone. *)
Lemma quiet_outcome_keeps_list_witness :
  snd (sample_update_printing (update bad_padding)
         [new_envelope (VStr "g1") (VStr "src") 1 9 (ascii_bytes "X")])
    = [new_envelope (VStr "g1") (VStr "src") 1 9 (ascii_bytes "X")] /\
  sample_update_printing (update two_more)
      [new_envelope (VStr "g1") (VStr "src") 1 4 (ascii_bytes "AB")]
    = (Completed (ascii_bytes "ABCD") (Failed except_zlib_error), []) /\
  ([] = [new_envelope (VStr "g1") (VStr "src") 1 4 (ascii_bytes "AB")] \/
   exists i d,
     [new_envelope (VStr "g1") (VStr "src") 1 4 (ascii_bytes "AB")] !! i = Some d /\
     [] = delete i [new_envelope (VStr "g1") (VStr "src") 1 4 (ascii_bytes "AB")]).
Proof.
  split; [| split].
  - apply (proj1 (quiet_outcome_keeps_list
                    sample_doc sample_zlib sample_json sample_console utf_8
                    (update bad_padding) _ _ (Handled except_binascii_Error) eq_refl)).
    + reflexivity.
    + reflexivity.
  - reflexivity.
  - apply (proj2 (quiet_outcome_keeps_list
                    sample_doc sample_zlib sample_json sample_console utf_8
                    (update two_more)
                    [new_envelope (VStr "g1") (VStr "src") 1 4 (ascii_bytes "AB")] []
                    (Completed (ascii_bytes "ABCD") (Failed except_zlib_error)) eq_refl)).
    left. reflexivity.
Defined.

(** An update event with nothing in it. *)
Lemma display_event_raises_witness :
  sample_display_printing "Update" ∅ [] = (Some (Propagated KeyError), []).
Proof.
  apply (proj1 (proj2 (display_event_raises
                         sample_doc sample_zlib sample_json sample_console utf_8
                         "Update" ∅ []))).
  - reflexivity.
  - reflexivity.
  - reflexivity.
Defined.
